(** * phoneline_fixer V2.0: the sampling, classification and actuation core

    A shallow embedding of [phoneline_fixer_V2.0.ino] (Arduino Nano,
    ATmega328P) and the properties of its line-state classifier, sample
    history and actuation sequencer.

    Conventions of the embedding:
    - C integers are [Z]; conversions that can wrap on the AVR ([int8_t]
      stores, the [short] cursor increment, the [unsigned long] counter) have
      the wrap written out.  [int] is 16 bits on this target.
    - [float] and [double] are both IEEE binary32 on avr-gcc; arithmetic is
      the Standard Library's [SpecFloat] instantiated at precision 24 and
      maximal exponent 128, rounding to nearest even after every operation.
    - globals and the board (output latches, the analog inputs, the sequence
      of I/O actions) form a [world]; functions of the sketch are computations
      in a state monad over it.
    - the program is built with [DEBUG 0] and [TEST_MOSFETS false]; the serial
      diagnostics guarded by them do not execute and are left out, and so are
      [show_samples], [show_history] and [loop_bad], which only they or nothing
      at all would call. *)

From Stdlib Require Import ZArith Bool List Lia.
From Stdlib Require Import Floats.SpecFloat.
From stdpp Require Import base list gmap strings.
Import ListNotations.
Local Open Scope Z_scope.

(** * The program *)

(** ** Integer conversions of the target *)

Definition to_int8 (z : Z) : Z := (z + 128) mod 256 - 128.
Definition to_int16 (z : Z) : Z := (z + 32768) mod 65536 - 32768.
Definition to_uint16 (z : Z) : Z := z mod 65536.
Definition to_uint32 (z : Z) : Z := z mod 4294967296.

(** ** Binary32 arithmetic *)

Module F32.
Definition prec : Z := 24.
Definition emax : Z := 128.
Definition float : Type := spec_float.

Definition add : float -> float -> float := SFadd prec emax.
Definition sub : float -> float -> float := SFsub prec emax.
Definition mul : float -> float -> float := SFmul prec emax.
Definition div : float -> float -> float := SFdiv prec emax.

(** An integer, or [m * 2^e], rounded to the format. *)
Definition of_Z (n : Z) : float := binary_normalize prec emax n 0 false.
Definition of_scaled (m e : Z) : float := binary_normalize prec emax m e false.

(** [x >= 0] *)
Definition ge0 (x : float) : bool := SFleb (S754_zero false) x.

(** The cast [(int) x]: truncation toward zero. *)
Definition to_int (x : float) : Z :=
  match x with
  | S754_finite s m e =>
      let mag := match e with
                 | Zneg p => Z.shiftr (Zpos m) (Zpos p)
                 | _ => Z.shiftl (Zpos m) e
                 end in
      if s then - mag else mag
  | _ => 0
  end.
End F32.

(** ** Constants of the sketch *)

(** Analog pin numbers of the Nano, from the board's core header. *)
Definition A0 : Z := 14.
Definition A1 : Z := 15.

Definition PBX_LINE_RING : Z := A1.
Definition PBX_LINE_TIP : Z := A0.
Definition DISCONNECT_SHUNT : Z := 4.
Definition DISCONNECT_CO_PBX_RING : Z := 3.
Definition DISCONNECT_CO_PBX_TIP : Z := 5.
Definition LED : Z := 13.

Definition HIGH : bool := true.
Definition LOW : bool := false.
Definition INPUT : bool := false.
Definition OUTPUT : bool := true.

Definition SAMPLE_INTERVAL : Z := 5.
Definition NUM_SAMPLES : Z := 50 / SAMPLE_INTERVAL.
Definition NUM_HISTORY : Z := 2000 / SAMPLE_INTERVAL.

Definition Vref : F32.float := F32.of_Z 5.
Definition Vbias : F32.float := F32.of_Z 5.
Definition RA : F32.float := F32.of_Z 100000.
Definition RB : F32.float := F32.of_Z 8200.
Definition RC : F32.float := F32.of_Z 9100.

(** ** Data model *)

Inductive line_state_t : Set := ON_HOOK | OFF_HOOK | RINGING.

Definition line_state_eqb (a b : line_state_t) : bool :=
  match a, b with
  | ON_HOOK, ON_HOOK | OFF_HOOK, OFF_HOOK | RINGING, RINGING => true
  | _, _ => false
  end.

Record pbx_line_t : Type := mk_line {
  name : string;
  port : Z;
  nextslot : Z;
  history : list Z
}.

(** The two instances; a [pbx_line_t *] argument is one of their addresses. *)
Inductive line_ptr : Set := Ptip | Pring.

(** I/O actions, in the order the program performs them. *)
Inductive event : Set :=
| EvPinMode (pin : Z) (mode : bool)
| EvDigitalWrite (pin : Z) (level : bool)
| EvAnalogRead (pin : Z) (aval : Z)
| EvDelay (ms : Z).

Record world : Type := mk_world {
  (* globals of the sketch *)
  last_linestate : line_state_t;
  pbx_tip : pbx_line_t;
  pbx_ring : pbx_line_t;
  count : Z;
  connected : bool;
  shunted : bool;
  (* the board *)
  pins : gmap Z bool;          (* output latches *)
  adc : nat -> Z -> Z;         (* k-th conversion, on a given pin *)
  adc_reads : nat;             (* conversions done so far *)
  log : list event
}.

(** Array access.  An index outside the array has no defined meaning in C;
    here a read gives 0 and a write is dropped, and the theorems below are
    stated for cursors inside the array. *)
Definition aget (a : list Z) (i : Z) : Z :=
  if i <? 0 then 0 else default 0 (a !! Z.to_nat i).

Definition aset (a : list Z) (i : Z) (v : Z) : list Z :=
  if i <? 0 then a else <[Z.to_nat i := v]> a.

(** ** State monad over the world *)

Definition M (A : Type) : Type := world -> A * world.

Definition ret {A} (a : A) : M A := fun w => (a, w).

Definition bind {A B} (m : M A) (k : A -> M B) : M B :=
  fun w => let (a, w') := m w in k a w'.

Definition gets {A} (f : world -> A) : M A := fun w => (f w, w).
Definition modify (f : world -> world) : M unit := fun w => (tt, f w).

Declare Scope prog_scope.
Delimit Scope prog_scope with prog.
Notation "x <- m ;; k" := (bind m (fun x => k))
  (at level 100, m at next level, k at level 200, right associativity) : prog_scope.
Notation "m ;; k" := (bind m (fun _ => k))
  (at level 100, k at level 200, right associativity) : prog_scope.
Local Open Scope prog_scope.

Definition exec {A} (m : M A) (w : world) : world := snd (m w).
Definition eval {A} (m : M A) (w : world) : A := fst (m w).

(** [for (i = 0; i < n; ++i) body], threading the loop's local variables. *)
Fixpoint for_loop {L} (n : nat) (body : L -> M L) (l : L) : M L :=
  match n with
  | O => ret l
  | S n' => l' <- body l ;; for_loop n' body l'
  end.

(** Field updates. *)
Definition set_last_linestate (v : line_state_t) (w : world) : world :=
  mk_world v (pbx_tip w) (pbx_ring w) (count w) (connected w) (shunted w)
           (pins w) (adc w) (adc_reads w) (log w).
Definition set_pbx_tip (v : pbx_line_t) (w : world) : world :=
  mk_world (last_linestate w) v (pbx_ring w) (count w) (connected w) (shunted w)
           (pins w) (adc w) (adc_reads w) (log w).
Definition set_pbx_ring (v : pbx_line_t) (w : world) : world :=
  mk_world (last_linestate w) (pbx_tip w) v (count w) (connected w) (shunted w)
           (pins w) (adc w) (adc_reads w) (log w).
Definition set_count (v : Z) (w : world) : world :=
  mk_world (last_linestate w) (pbx_tip w) (pbx_ring w) v (connected w) (shunted w)
           (pins w) (adc w) (adc_reads w) (log w).
Definition set_connected (v : bool) (w : world) : world :=
  mk_world (last_linestate w) (pbx_tip w) (pbx_ring w) (count w) v (shunted w)
           (pins w) (adc w) (adc_reads w) (log w).
Definition set_shunted (v : bool) (w : world) : world :=
  mk_world (last_linestate w) (pbx_tip w) (pbx_ring w) (count w) (connected w) v
           (pins w) (adc w) (adc_reads w) (log w).
Definition set_pins (v : gmap Z bool) (w : world) : world :=
  mk_world (last_linestate w) (pbx_tip w) (pbx_ring w) (count w) (connected w)
           (shunted w) v (adc w) (adc_reads w) (log w).
Definition set_adc_reads (v : nat) (w : world) : world :=
  mk_world (last_linestate w) (pbx_tip w) (pbx_ring w) (count w) (connected w)
           (shunted w) (pins w) (adc w) v (log w).
Definition emit (e : event) (w : world) : world :=
  mk_world (last_linestate w) (pbx_tip w) (pbx_ring w) (count w) (connected w)
           (shunted w) (pins w) (adc w) (adc_reads w) (log w ++ [e]).

Definition deref (p : line_ptr) (w : world) : pbx_line_t :=
  match p with Ptip => pbx_tip w | Pring => pbx_ring w end.

Definition assign (p : line_ptr) (l : pbx_line_t) (w : world) : world :=
  match p with Ptip => set_pbx_tip l w | Pring => set_pbx_ring l w end.

Definition set_nextslot (v : Z) (l : pbx_line_t) : pbx_line_t :=
  mk_line (name l) (port l) v (history l).
Definition set_history (v : list Z) (l : pbx_line_t) : pbx_line_t :=
  mk_line (name l) (port l) (nextslot l) v.

(** ** Board primitives *)

Definition pinMode (pin : Z) (mode : bool) : M unit :=
  modify (emit (EvPinMode pin mode)).

Definition digitalWrite (pin : Z) (level : bool) : M unit :=
  modify (fun w => emit (EvDigitalWrite pin level) (set_pins (<[pin := level]> (pins w)) w)).

Definition analogRead (pin : Z) : M Z :=
  fun w =>
    let v := adc w (adc_reads w) pin in
    (v, emit (EvAnalogRead pin v) (set_adc_reads (S (adc_reads w)) w)).

Definition delay (ms : Z) : M unit := modify (emit (EvDelay ms)).

(** ** The sketch *)

(** Lines 131-141, inside [read_voltage]: the scale-and-bias transform in
    binary32 and the rounding to whole volts, as a function of [aval]. *)
Definition rounded_volts (aval : Z) : Z :=
  let Vout := F32.div (F32.mul (F32.of_Z aval) Vref) (F32.of_Z 1024) in
  let Vin :=
    F32.mul
      (F32.sub
         (F32.mul Vout
            (F32.add (F32.add (F32.div (F32.of_Z 1) RA) (F32.div (F32.of_Z 1) RB))
                     (F32.div (F32.of_Z 1) RC)))
         (F32.div Vbias RB))
      RA in
  if F32.ge0 Vin
  then F32.to_int (F32.add Vin (F32.of_scaled 1 (-1)))
  else F32.to_int (F32.sub Vin (F32.of_scaled 1 (-1))).

(** Lines 129-144.  The increment of the cursor and its wrap to 0 are one
    update of [nextslot]. *)
Definition read_voltage (p : line_ptr) : M Z :=
  l <- gets (deref p) ;;
  raw <- analogRead (port l) ;;
  let aval := to_uint16 raw in
  c <- gets count ;;
  modify (set_count (to_uint32 (c + 1))) ;;
  let V := rounded_volts aval in
  l <- gets (deref p) ;;
  modify (assign p (set_history (aset (history l) (nextslot l) (to_int8 V)) l)) ;;
  l <- gets (deref p) ;;
  let n := to_int16 (nextslot l + 1) in           (* ++p->nextslot *)
  modify (assign p (set_nextslot (if n >=? NUM_HISTORY then 0 else n) l)) ;;
  ret V.

(** Local variables of the scan in [getlinestate] (lines 182-184). *)
Record scan_t : Set := mk_scan {
  ndx : Z;
  onhook : bool;
  offhook : bool;
  ringing_samples : Z
}.

(** Lines 186-190: one iteration of the scan. *)
Definition scan_body (s : scan_t) : M scan_t :=
  let ndx := if ndx s - 1 <? 0 then NUM_HISTORY - 1 else ndx s - 1 in
  tip <- gets pbx_tip ;;
  ring <- gets pbx_ring ;;
  let vdelta := aget (history tip) ndx - aget (history ring) ndx in
  let onhook := if (vdelta <? 35) || (vdelta >? 60) then false else onhook s in
  let offhook := if (vdelta <? -10) || (vdelta >? 20) then false else offhook s in
  let ringing_samples :=
    if (vdelta <? -70) || (vdelta >? 70)
    then ringing_samples s + 1 else ringing_samples s in
  ret (mk_scan ndx onhook offhook ringing_samples).

(** Lines 173-196. *)
Definition getlinestate : M line_state_t :=
  ring <- gets pbx_ring ;;
  s <- for_loop (Z.to_nat NUM_SAMPLES) scan_body (mk_scan (nextslot ring) true true 0) ;;
  if onhook s then ret ON_HOOK
  else if offhook s then ret OFF_HOOK
  else if ringing_samples s >=? 2 then ret RINGING
  else gets last_linestate.

(** Lines 198-205. *)
Definition do_connect (connect : bool) : M unit :=
  digitalWrite DISCONNECT_CO_PBX_TIP (negb connect) ;;
  digitalWrite DISCONNECT_CO_PBX_RING (negb connect) ;;
  modify (set_connected connect).

Definition do_shunt (put_shunt_in : bool) : M unit :=
  digitalWrite DISCONNECT_SHUNT (negb put_shunt_in) ;;
  modify (set_shunted put_shunt_in).

(** Lines 207-241. *)
Definition setup : M unit :=
  pinMode PBX_LINE_RING INPUT ;;
  pinMode PBX_LINE_TIP INPUT ;;
  pinMode DISCONNECT_SHUNT OUTPUT ;;
  pinMode DISCONNECT_CO_PBX_TIP OUTPUT ;;
  pinMode DISCONNECT_CO_PBX_RING OUTPUT ;;
  pinMode LED OUTPUT ;;
  digitalWrite LED LOW ;;
  do_shunt false ;;
  do_connect true ;;
  for_loop (Z.to_nat NUM_HISTORY)
    (fun _ : unit => read_voltage Pring ;; read_voltage Ptip ;; ret tt) tt ;;
  modify (set_last_linestate ON_HOOK).

(** Lines 243-256. *)
Definition do_disconnect : M unit :=
  digitalWrite LED HIGH ;;
  do_shunt true ;;
  do_connect false ;;
  delay 750 ;;
  do_connect true ;;
  do_shunt false ;;
  digitalWrite LED LOW.

(** Lines 279-318. *)
Definition loop : M unit :=
  read_voltage Pring ;;
  read_voltage Ptip ;;
  new_linestate <- getlinestate ;;
  last <- gets last_linestate ;;
  (if negb (line_state_eqb new_linestate last)
   then
     last <- gets last_linestate ;;
     (if line_state_eqb last ON_HOOK && line_state_eqb new_linestate OFF_HOOK
      then
        digitalWrite LED HIGH ;;
        do_shunt true ;;
        delay 750 ;;
        do_shunt false ;;
        digitalWrite LED LOW
      else ret tt) ;;
     modify (set_last_linestate new_linestate)
   else ret tt) ;;
  delay SAMPLE_INTERVAL.

(** The globals' static initialisers and the board at reset, with the analog
    inputs the line will present. *)
Definition reset (inputs : nat -> Z -> Z) : world :=
  mk_world ON_HOOK
           (mk_line "Tip" PBX_LINE_TIP 0 (replicate (Z.to_nat NUM_HISTORY) 0))
           (mk_line "Ring" PBX_LINE_RING 0 (replicate (Z.to_nat NUM_HISTORY) 0))
           0 false false ∅ inputs O [].

(** [setup] once, then [n] passes of [loop]. *)
Definition boot (inputs : nat -> Z -> Z) : world := exec setup (reset inputs).

Fixpoint run (n : nat) (w : world) : world :=
  match n with
  | O => w
  | S n' => exec loop (run n' w)
  end.

(** ** Vocabulary of the properties *)

(** Voltage across the pair at history slot [i]: tip minus ring. *)
Definition delta_at (w : world) (i : Z) : Z :=
  aget (history (pbx_tip w)) i - aget (history (pbx_ring w)) i.

(** The [n] slots written last before cursor position [c], newest first. *)
Definition deltas_before (w : world) (c : Z) (n : nat) : list Z :=
  map (fun k => delta_at w ((c - 1 - Z.of_nat k) mod NUM_HISTORY)) (seq 0 n).

(** The window the classifier decides on: the [NUM_SAMPLES] most recent
    time-aligned pairs, located by the ring conductor's cursor. *)
Definition recent_deltas (w : world) : list Z :=
  deltas_before w (nextslot (pbx_ring w)) (Z.to_nat NUM_SAMPLES).

Definition cursor_ok (w : world) : Prop :=
  0 <= nextslot (pbx_ring w) < NUM_HISTORY.

Definition onhook_band (d : Z) : bool := negb ((d <? 35) || (d >? 60)).
Definition offhook_band (d : Z) : bool := negb ((d <? -10) || (d >? 20)).
Definition ringing_level (d : Z) : bool := (d <? -70) || (d >? 70).

(** Number of deltas of magnitude above 70 volts. *)
Fixpoint ringing_count (ds : list Z) : Z :=
  match ds with
  | [] => 0
  | d :: ds' => (if ringing_level d then 1 else 0) + ringing_count ds'
  end.

(** A world with given sample histories, cursor and held state; the board is
    as at reset. *)
Definition world_of (tip ring : list Z) (cursor : Z) (held : line_state_t) : world :=
  mk_world held
           (mk_line "Tip" PBX_LINE_TIP cursor tip)
           (mk_line "Ring" PBX_LINE_RING cursor ring)
           0 true false ∅ (fun _ _ => 0) O [].

(** The world in which [loop] calls the classifier: after this pass's two
    acquisitions. *)
Definition sampled (w : world) : world :=
  exec (read_voltage Ptip) (exec (read_voltage Pring) w).

(** The classifier's new decision in this pass of [loop]. *)
Definition decision (w : world) : line_state_t := eval getlinestate (sampled w).

(** The I/O actions one pass of [loop] adds to the log. *)
Definition cycle_events (w : world) : list event :=
  drop (length (log w)) (log (exec loop w)).

(** The actuation sequence of lines 302-307. *)
Definition actuation_block : M unit :=
  digitalWrite LED HIGH ;;
  do_shunt true ;;
  delay 750 ;;
  do_shunt false ;;
  digitalWrite LED LOW.

Definition actuation : list event :=
  [ EvDigitalWrite LED HIGH;
    EvDigitalWrite DISCONNECT_SHUNT LOW;
    EvDelay 750;
    EvDigitalWrite DISCONNECT_SHUNT HIGH;
    EvDigitalWrite LED LOW ].

Definition actuation_runs (w : world) : Prop :=
  exists pre post, cycle_events w = pre ++ actuation ++ post.

Definition is_edge (w : world) : bool :=
  line_state_eqb (last_linestate w) ON_HOOK && line_state_eqb (decision w) OFF_HOOK.

Definition is_digitalWrite (e : event) : bool :=
  match e with EvDigitalWrite _ _ => true | _ => false end.

(** Milliseconds of [delay] spent with the conditioning element across the
    line (its pin driven low), given whether it is engaged at the start. *)
Fixpoint engaged_ms (engaged : bool) (evs : list event) : Z :=
  match evs with
  | [] => 0
  | EvDigitalWrite pin level :: evs' =>
      if pin =? DISCONNECT_SHUNT then engaged_ms (negb level) evs'
      else engaged_ms engaged evs'
  | EvDelay ms :: evs' => (if engaged then ms else 0) + engaged_ms engaged evs'
  | _ :: evs' => engaged_ms engaged evs'
  end.

(** What [getlinestate] computes, as a function of the window and the held
    state. *)
Definition classify (ds : list Z) (held : line_state_t) : line_state_t :=
  if forallb onhook_band ds then ON_HOOK
  else if forallb offhook_band ds then OFF_HOOK
  else if ringing_count ds >=? 2 then RINGING
  else held.

(** Number of list elements satisfying a test. *)
Definition count_if (f : Z -> bool) (ds : list Z) : Z :=
  Z.of_nat (length (List.filter f ds)).

(** Largest code the 10-bit converter returns. *)
Definition ADC_MAX : Z := 1023.

(** [f 0 <= f 1 <= ... <= f n], checked step by step. *)
Fixpoint nondecreasing_upto (f : Z -> Z) (n : nat) : bool :=
  match n with
  | O => true
  | S n' => (f (Z.of_nat n') <=? f (Z.of_nat n)) && nondecreasing_upto f n'
  end.

(** The world [setup] has produced when it reaches its fill loop. *)
Definition setup_outputs (w : world) : world :=
  mk_world (last_linestate w) (pbx_tip w) (pbx_ring w) (count w) true false
           (<[DISCONNECT_CO_PBX_RING := LOW]>
              (<[DISCONNECT_CO_PBX_TIP := LOW]>
                 (<[DISCONNECT_SHUNT := HIGH]> (<[LED := LOW]> (pins w)))))
           (adc w) (adc_reads w)
           (log w ++
            [ EvPinMode PBX_LINE_RING INPUT;
              EvPinMode PBX_LINE_TIP INPUT;
              EvPinMode DISCONNECT_SHUNT OUTPUT;
              EvPinMode DISCONNECT_CO_PBX_TIP OUTPUT;
              EvPinMode DISCONNECT_CO_PBX_RING OUTPUT;
              EvPinMode LED OUTPUT;
              EvDigitalWrite LED LOW;
              EvDigitalWrite DISCONNECT_SHUNT HIGH;
              EvDigitalWrite DISCONNECT_CO_PBX_TIP LOW;
              EvDigitalWrite DISCONNECT_CO_PBX_RING LOW ]).

(** [n] rounds of one acquisition per conductor, ring first. *)
Fixpoint acquire (n : nat) (w : world) : world :=
  match n with
  | O => w
  | S n' => acquire n' (sampled w)
  end.

(** The value stored for the ring and the tip conductor in acquisition round
    [j], counted from reset: conversions [2j] and [2j+1] of the inputs. *)
Definition ring_sample (inputs : nat -> Z -> Z) (j : nat) : Z :=
  to_int8 (rounded_volts (to_uint16 (inputs (2 * j)%nat PBX_LINE_RING))).
Definition tip_sample (inputs : nat -> Z -> Z) (j : nat) : Z :=
  to_int8 (rounded_volts (to_uint16 (inputs (S (2 * j)) PBX_LINE_TIP))).

(** State of the two history buffers after [T] acquisition rounds: both
    cursors are at [T mod NUM_HISTORY], and for each of the last
    [NUM_HISTORY] rounds [j] the slot [j mod NUM_HISTORY] of either buffer
    holds that round's sample of its conductor. *)
Definition buffers_hold (inputs : nat -> Z -> Z) (T : nat) (w : world) : Prop :=
  adc w = inputs /\
  adc_reads w = (2 * T)%nat /\
  port (pbx_ring w) = PBX_LINE_RING /\
  port (pbx_tip w) = PBX_LINE_TIP /\
  nextslot (pbx_ring w) = Z.of_nat (T mod Z.to_nat NUM_HISTORY) /\
  nextslot (pbx_tip w) = Z.of_nat (T mod Z.to_nat NUM_HISTORY) /\
  length (history (pbx_ring w)) = Z.to_nat NUM_HISTORY /\
  length (history (pbx_tip w)) = Z.to_nat NUM_HISTORY /\
  forall j : nat,
    (j < T)%nat -> (T <= j + Z.to_nat NUM_HISTORY)%nat ->
    history (pbx_ring w) !! (j mod Z.to_nat NUM_HISTORY)%nat = Some (ring_sample inputs j) /\
    history (pbx_tip w) !! (j mod Z.to_nat NUM_HISTORY)%nat = Some (tip_sample inputs j).

(** Writes to the pins of the CO-to-PBX relays. *)
Definition on_relay_pin (e : event) : bool :=
  match e with
  | EvDigitalWrite pin _ => (pin =? DISCONNECT_CO_PBX_TIP) || (pin =? DISCONNECT_CO_PBX_RING)
  | _ => false
  end.

Definition relay_writes (evs : list event) : list event := List.filter on_relay_pin evs.

(** Analog inputs of a line that rests on hook (ring -44 V, tip 0 V) through
    start-up and ten more rounds, and is off hook (ring -24 V, tip -20 V)
    from then on. *)
Definition scenario_inputs (k : nat) (pin : Z) : Z :=
  if (k <? 2 * 410)%nat
  then (if pin =? PBX_LINE_RING then 140 else 520)
  else (if pin =? PBX_LINE_RING then 310 else 350).

(** The CO-to-PBX relays are closed and have only ever been driven closed, by
    the two writes of [setup]. *)
Definition relays_closed (w : world) : Prop :=
  connected w = true /\
  pins w !! DISCONNECT_CO_PBX_TIP = Some LOW /\
  pins w !! DISCONNECT_CO_PBX_RING = Some LOW /\
  relay_writes (log w) =
    [EvDigitalWrite DISCONNECT_CO_PBX_TIP LOW; EvDigitalWrite DISCONNECT_CO_PBX_RING LOW].

(** ** Further vocabulary *)

(** Voltage across the pair in acquisition round [j], as stored. *)
Definition round_delta (inputs : nat -> Z -> Z) (j : nat) : Z :=
  tip_sample inputs j - ring_sample inputs j.

(** Between passes the conditioning element is out and the LED is off. *)
Definition outputs_idle (w : world) : Prop :=
  shunted w = false /\
  pins w !! DISCONNECT_SHUNT = Some HIGH /\
  pins w !! LED = Some LOW.

(** Each relay pin carries the negation of its flag ("high to disconnect"). *)
Definition pins_mirror_flags (w : world) : Prop :=
  pins w !! DISCONNECT_SHUNT = Some (negb (shunted w)) /\
  pins w !! DISCONNECT_CO_PBX_TIP = Some (negb (connected w)) /\
  pins w !! DISCONNECT_CO_PBX_RING = Some (negb (connected w)).

(** The deltas of the ten acquisition rounds that end with round [last],
    newest first. *)
Definition rounds_window (inputs : nat -> Z -> Z) (last : nat) : list Z :=
  map (fun k => round_delta inputs (last - k)) (seq 0 (Z.to_nat NUM_SAMPLES)).


(** The two conversions of acquisition round [j], as logged. *)
Definition round_reads (inputs : nat -> Z -> Z) (j : nat) : list event :=
  [ EvAnalogRead PBX_LINE_RING (inputs (2 * j)%nat PBX_LINE_RING);
    EvAnalogRead PBX_LINE_TIP (inputs (S (2 * j)) PBX_LINE_TIP) ].

(** The pin set-up that [setup] logs before it fills the buffers. *)
Definition setup_events : list event :=
  [ EvPinMode PBX_LINE_RING INPUT;
    EvPinMode PBX_LINE_TIP INPUT;
    EvPinMode DISCONNECT_SHUNT OUTPUT;
    EvPinMode DISCONNECT_CO_PBX_TIP OUTPUT;
    EvPinMode DISCONNECT_CO_PBX_RING OUTPUT;
    EvPinMode LED OUTPUT;
    EvDigitalWrite LED LOW;
    EvDigitalWrite DISCONNECT_SHUNT HIGH;
    EvDigitalWrite DISCONNECT_CO_PBX_TIP LOW;
    EvDigitalWrite DISCONNECT_CO_PBX_RING LOW ].

(** What pass [i] of [loop] (counted from 0) logs. *)
Definition pass_events (inputs : nat -> Z -> Z) (i : nat) : list event :=
  round_reads inputs (Z.to_nat NUM_HISTORY + i)
  ++ (if is_edge (run i (boot inputs)) then actuation else [])
  ++ [EvDelay SAMPLE_INTERVAL].

(** Milliseconds of [delay] spent with a CO-to-PBX relay open, given whether
    the tip and the ring relay are open at the start. *)
Fixpoint isolated_ms (tip_open ring_open : bool) (evs : list event) : Z :=
  match evs with
  | [] => 0
  | EvDigitalWrite pin level :: evs' =>
      if pin =? DISCONNECT_CO_PBX_TIP then isolated_ms level ring_open evs'
      else if pin =? DISCONNECT_CO_PBX_RING then isolated_ms tip_open level evs'
      else isolated_ms tip_open ring_open evs'
  | EvDelay ms :: evs' =>
      (if tip_open || ring_open then ms else 0) + isolated_ms tip_open ring_open evs'
  | _ :: evs' => isolated_ms tip_open ring_open evs'
  end.

(** After each action of [evs], a relay is open only while the shunt is in. *)
Fixpoint shunt_holds_line (shunt_in tip_open ring_open : bool) (evs : list event) : bool :=
  match evs with
  | [] => true
  | e :: evs' =>
      let '(s, t, r) :=
        match e with
        | EvDigitalWrite pin level =>
            if pin =? DISCONNECT_SHUNT then (negb level, tip_open, ring_open)
            else if pin =? DISCONNECT_CO_PBX_TIP then (shunt_in, level, ring_open)
            else if pin =? DISCONNECT_CO_PBX_RING then (shunt_in, tip_open, level)
            else (shunt_in, tip_open, ring_open)
        | _ => (shunt_in, tip_open, ring_open)
        end in
      (negb (t || r) || s) && shunt_holds_line s t r evs'
  end.

(** The conversion counter agrees with the number of conversions made, up to
    the width of [unsigned long]. *)
Definition count_tracks_reads (w : world) : Prop :=
  count w = to_uint32 (Z.of_nat (adc_reads w)).

(** [f (k+1) - f k <= 1] for every [k < n], checked step by step. *)
Fixpoint steps_at_most_one (f : Z -> Z) (n : nat) : bool :=
  match n with
  | O => true
  | S n' => (f (Z.of_nat n) - f (Z.of_nat n') <=? 1) && steps_at_most_one f n'
  end.

(** Every stored sample is a voltage the transform can produce. *)
Definition samples_bounded (w : world) : Prop :=
  Forall (fun v => -61 <= v <= 60) (history (pbx_ring w)) /\
  Forall (fun v => -61 <= v <= 60) (history (pbx_tip w)).


(** ** Serial diagnostics

    The functions that only talk to the serial port leave the world alone;
    they are modelled by what they transmit.  [do ... while] loops take fuel
    and give [None] when it runs out. *)

From Stdlib Require Import Ascii.

Inductive tx : Set :=
| TxInt (v : Z)            (* Serial.print of a number *)
| TxStr (s : string)       (* Serial.print of a string *)
| TxChar (c : ascii)       (* Serial.print of a character *)
| TxLn                     (* the line end of Serial.println *)
| TxFlush.                 (* Serial.flush *)

(** [do s = body s; while (again s)] *)
Fixpoint do_while {St : Type} (fuel : nat) (body : St -> St) (again : St -> bool) (s : St)
  : option St :=
  match fuel with
  | O => None
  | S fuel' =>
      let s' := body s in
      if again s' then do_while fuel' body again s' else Some s'
  end.

(** Lines 152-154: the body of the loop of [show_samples], on [(ndx, sent)]. *)
Definition show_samples_body (l : pbx_line_t) (s : Z * list tx) : Z * list tx :=
  let '(ndx, sent) := s in
  let sent := sent ++ [TxInt (aget (history l) ndx); TxStr " "] in
  let ndx := if ndx + 1 >=? NUM_HISTORY then 0 else ndx + 1 in
  (ndx, sent).

(** Lines 146-157. *)
Definition show_samples (fuel : nat) (p : line_ptr) (w : world) : option (list tx) :=
  let l := deref p w in
  let sent := [TxInt (count w); TxStr ", "; TxStr (name l); TxStr ": "] in
  let ndx := nextslot l - NUM_SAMPLES in
  let ndx := if ndx <? 0 then ndx + NUM_HISTORY else ndx in
  match do_while fuel (show_samples_body l)
                 (fun s => negb (fst s =? nextslot l)) (ndx, sent) with
  | Some (_, sent) => Some (sent ++ [TxStr "                "; TxLn; TxFlush])
  | None => None
  end.

(** Lines 164-169: the body of the loop of [show_history], on
    [(ndx, cnt, sent)]. *)
Definition show_history_body (l : pbx_line_t) (s : Z * Z * list tx) : Z * Z * list tx :=
  let '(ndx, cnt, sent) := s in
  let sent := sent ++ [TxInt (aget (history l) ndx); TxChar " "] in
  let cnt := cnt + 1 in
  let '(cnt, sent) :=
    if cnt >? 20 then (0, sent ++ [TxLn; TxStr "  "]) else (cnt, sent) in
  let ndx := if ndx + 1 >=? NUM_HISTORY then 0 else ndx + 1 in
  (ndx, cnt, sent).

(** Lines 159-171. *)
Definition show_history (fuel : nat) (p : line_ptr) (w : world) : option (list tx) :=
  let l := deref p w in
  let sent := [TxStr (name l); TxStr " history: "] in
  match do_while fuel (show_history_body l)
                 (fun s => negb (fst (fst s) =? nextslot l)) (nextslot l, 0, sent) with
  | Some (_, _, sent) => Some (sent ++ [TxLn])
  | None => None
  end.

(** The numbers in a transmission, in order, and its line ends. *)
Definition tx_numbers (sent : list tx) : list Z :=
  flat_map (fun t => match t with TxInt v => [v] | _ => [] end) sent.

Definition tx_line_ends (sent : list tx) : nat :=
  length (List.filter (fun t => match t with TxLn => true | _ => false end) sent).

(** [n] slots of a conductor's buffer from slot [from] on, wrapping at the
    end of the array. *)
Definition slots_from (l : pbx_line_t) (from : Z) (n : nat) : list Z :=
  map (fun k => aget (history l) ((from + Z.of_nat k) mod NUM_HISTORY)) (seq 0 n).

(** [n] applications of a loop body. *)
Fixpoint repeat_body {St : Type} (body : St -> St) (n : nat) (s : St) : St :=
  match n with
  | O => s
  | S n' => repeat_body body n' (body s)
  end.

(** The [n] samples of a conductor stored last before cursor position [c],
    newest first (compare [deltas_before]). *)
Definition samples_before (l : pbx_line_t) (c : Z) (n : nat) : list Z :=
  map (fun k => aget (history l) ((c - 1 - Z.of_nat k) mod NUM_HISTORY)) (seq 0 n).

(** What [show_history] sends for [n] slots from slot [from] on: each value
    and a blank, and after every 21st value a line end and two blanks. *)
Definition history_text (l : pbx_line_t) (from : Z) (n : nat) : list tx :=
  flat_map
    (fun k =>
       [TxInt (aget (history l) ((from + Z.of_nat k) mod NUM_HISTORY)); TxChar " "]
       ++ (if (S k mod 21 =? 0)%nat then [TxLn; TxStr "  "] else []))
    (seq 0 n).

(** Lines 258-277.  [rx] is what the serial port has received and not yet
    handed out; the result is what was sent and what is left of [rx]. *)
Definition loop_bad (rx : list ascii) : M (list tx * list ascii) :=
  match rx with
  | [] => ret ([], [])
  | ch :: rx' =>
      sent1 <-
        (if Ascii.eqb ch " "
         then
           c <- gets connected ;;
           do_connect (negb c) ;;
           c <- gets connected ;;
           ret [TxStr (if c then "connected" else "disconnected"); TxLn]
         else ret []) ;;
      sent2 <-
        (if Ascii.eqb ch "s"
         then
           s <- gets shunted ;;
           do_shunt (negb s) ;;
           s <- gets shunted ;;
           ret [TxStr (if s then "shunt is in" else "shunt is out"); TxLn]
         else ret []) ;;
      sent3 <-
        (if Ascii.eqb ch "t"
         then
           do_shunt true ;;
           delay 600 ;;
           do_connect true ;;
           do_shunt false ;;
           ret [TxStr "test done; remember to disconnect"; TxLn]
         else ret []) ;;
      ret (sent1 ++ sent2 ++ sent3, rx')
  end.

(** ** Version 1.0 of the sketch

    The first version of the program, which isolates the PBX from the CO
    line behind a resistive shunt for 600 ms.  It has its own thresholds,
    calibration constants and a ten-sample buffer that is also the
    classifier's window.  Functions take the state and the raw conversions
    and return the new state and the I/O actions. *)

Module V1.

Definition MAXSAMPLES : Z := 10.
Definition SAMPLE_INTERVAL : Z := 5.
Definition DISCONNECT_SHUNT : Z := 4.
Definition DISCONNECT_CO_PBX : Z := 3.

(** [4.9] is the binary32 nearest to 49/10. *)
Definition Vref : F32.float := F32.div (F32.of_Z 49) (F32.of_Z 10).
Definition Vbias : F32.float := F32.div (F32.of_Z 49) (F32.of_Z 10).
Definition RA : F32.float := F32.of_Z 108000.
Definition RB : F32.float := F32.of_Z 7150.
Definition RC : F32.float := F32.of_Z 158000.

Record pbx_line_t : Type := mk_line {
  name : string;
  port : Z;
  nextsample : Z;
  samples : list Z
}.

Record state : Type := mk_state {
  last_linestate : line_state_t;
  pbx_tip : pbx_line_t;
  pbx_ring : pbx_line_t;
  count : Z
}.

Definition deref (p : line_ptr) (w : state) : pbx_line_t :=
  match p with Ptip => pbx_tip w | Pring => pbx_ring w end.

Definition assign (p : line_ptr) (l : pbx_line_t) (w : state) : state :=
  match p with
  | Ptip => mk_state (last_linestate w) l (pbx_ring w) (count w)
  | Pring => mk_state (last_linestate w) (pbx_tip w) l (count w)
  end.

(** The transform and rounding inside [read_voltage]. *)
Definition rounded_volts (aval : Z) : Z :=
  let Vout := F32.div (F32.mul (F32.of_Z aval) Vref) (F32.of_Z 1024) in
  let Vin :=
    F32.mul
      (F32.sub
         (F32.mul Vout
            (F32.add (F32.add (F32.div (F32.of_Z 1) RA) (F32.div (F32.of_Z 1) RB))
                     (F32.div (F32.of_Z 1) RC)))
         (F32.div Vbias RB))
      RA in
  if F32.ge0 Vin
  then F32.to_int (F32.add Vin (F32.of_scaled 1 (-1)))
  else F32.to_int (F32.sub Vin (F32.of_scaled 1 (-1))).

(** [read_voltage], given the code [analogRead] returns. *)
Definition read_voltage (p : line_ptr) (raw : Z) (w : state) : Z * state :=
  let l := deref p w in
  let aval := to_uint16 raw in
  let w := mk_state (last_linestate w) (pbx_tip w) (pbx_ring w) (to_uint32 (count w + 1)) in
  let V := rounded_volts aval in
  let n := to_int16 (nextsample l + 1) in
  (V, assign p (mk_line (name l) (port l) (if n >=? MAXSAMPLES then 0 else n)
                        (aset (samples l) (nextsample l) V)) w).

(** The body of the loop of [newlinestate], on
    [(onhook, offhook, ringing_samples)], for index [i]. *)
Definition newlinestate_body (w : state) (acc : bool * bool * Z) (i : Z) : bool * bool * Z :=
  let '(onhook, offhook, ringing_samples) := acc in
  let v_ring := aget (samples (pbx_ring w)) i in
  let v_tip := aget (samples (pbx_tip w)) i in
  let onhook :=
    if (v_ring >? -40) || (v_ring <? -60) || (v_tip >? 10) || (v_tip <? -10)
    then false else onhook in
  let offhook :=
    if (v_ring >? -15) || (v_ring <? -40) || (v_tip >? -10) || (v_tip <? -30)
    then false else offhook in
  let ringing_samples :=
    if (v_ring <? -70) && (v_tip >? -10) then ringing_samples + 1 else ringing_samples in
  (onhook, offhook, ringing_samples).

Definition newlinestate (w : state) : line_state_t :=
  let '(onhook, offhook, ringing_samples) :=
    fold_left (newlinestate_body w)
              (map Z.of_nat (seq 0 (Z.to_nat MAXSAMPLES))) (true, true, 0) in
  if onhook then ON_HOOK
  else if offhook then OFF_HOOK
  else if ringing_samples >=? 2 then RINGING
  else last_linestate w.

(** The isolating sequence inside [loop]. *)
Definition isolation : list event :=
  [ EvDigitalWrite LED HIGH;
    EvDigitalWrite DISCONNECT_SHUNT false;
    EvDigitalWrite DISCONNECT_CO_PBX true;
    EvDelay 600;
    EvDigitalWrite DISCONNECT_CO_PBX false;
    EvDigitalWrite DISCONNECT_SHUNT true;
    EvDigitalWrite LED LOW ].

(** One pass of [loop], given the two codes [analogRead] returns. *)
Definition loop (raw_ring raw_tip : Z) (w : state) : state * list event :=
  let reads := [EvAnalogRead (port (pbx_ring w)) raw_ring] in
  let w := snd (read_voltage Pring raw_ring w) in
  let reads := reads ++ [EvAnalogRead (port (pbx_tip w)) raw_tip] in
  let w := snd (read_voltage Ptip raw_tip w) in
  let new_linestate := newlinestate w in
  if negb (line_state_eqb new_linestate (last_linestate w))
  then
    let acts :=
      if line_state_eqb (last_linestate w) ON_HOOK && line_state_eqb new_linestate OFF_HOOK
      then isolation else [] in
    (mk_state new_linestate (pbx_tip w) (pbx_ring w) (count w),
     reads ++ acts ++ [EvDelay SAMPLE_INTERVAL])
  else (w, reads ++ [EvDelay SAMPLE_INTERVAL]).

(** A state with given sample arrays, cursor and held state. *)
Definition state_of (tip ring : list Z) (cursor : Z) (held : line_state_t) : state :=
  mk_state held (mk_line "Tip" PBX_LINE_TIP cursor tip)
           (mk_line "Ring" PBX_LINE_RING cursor ring) 0.

End V1.

(** The state in which version 1.0's [loop] calls its classifier. *)
Definition v1_sampled (raw_ring raw_tip : Z) (w : V1.state) : V1.state :=
  snd (V1.read_voltage Ptip raw_tip (snd (V1.read_voltage Pring raw_ring w))).

(** The tests version 1.0 applies to the sample pair at index [i]. *)
Definition v1_onhook_at (w : V1.state) (i : Z) : bool :=
  let v_ring := aget (V1.samples (V1.pbx_ring w)) i in
  let v_tip := aget (V1.samples (V1.pbx_tip w)) i in
  negb ((v_ring >? -40) || (v_ring <? -60) || (v_tip >? 10) || (v_tip <? -10)).

Definition v1_offhook_at (w : V1.state) (i : Z) : bool :=
  let v_ring := aget (V1.samples (V1.pbx_ring w)) i in
  let v_tip := aget (V1.samples (V1.pbx_tip w)) i in
  negb ((v_ring >? -15) || (v_ring <? -40) || (v_tip >? -10) || (v_tip <? -30)).

Definition v1_ringing_at (w : V1.state) (i : Z) : bool :=
  let v_ring := aget (V1.samples (V1.pbx_ring w)) i in
  let v_tip := aget (V1.samples (V1.pbx_tip w)) i in
  (v_ring <? -70) && (v_tip >? -10).

Definition v1_indices : list Z := map Z.of_nat (seq 0 (Z.to_nat V1.MAXSAMPLES)).

(** Number of ringing-level pairs among the given indices. *)
Fixpoint v1_count (w : V1.state) (idxs : list Z) : Z :=
  match idxs with
  | [] => 0
  | i :: idxs' => (if v1_ringing_at w i then 1 else 0) + v1_count w idxs'
  end.

(** * Properties *)

(** ** Running the model *)

Example rounded_volts_samples :
  map rounded_volts [0; 140; 310; 350; 512; 520; 1023] = [-61; -44; -24; -20; -1; 0; 60].
Proof. vm_compute. reflexivity. Qed.

(** The line of [scenario_inputs]: the held state stays ON_HOOK until the
    whole window is off hook, which is the twentieth pass; that pass runs the
    one actuation sequence of the run, and later passes add none. *)
Example scenario_one_actuation :
  last_linestate (run 19 (boot scenario_inputs)) = ON_HOOK /\
  List.filter is_digitalWrite (log (run 19 (boot scenario_inputs))) =
    [EvDigitalWrite LED LOW; EvDigitalWrite DISCONNECT_SHUNT HIGH;
     EvDigitalWrite DISCONNECT_CO_PBX_TIP LOW; EvDigitalWrite DISCONNECT_CO_PBX_RING LOW] /\
  last_linestate (run 20 (boot scenario_inputs)) = OFF_HOOK /\
  List.filter is_digitalWrite (log (run 40 (boot scenario_inputs))) =
    [EvDigitalWrite LED LOW; EvDigitalWrite DISCONNECT_SHUNT HIGH;
     EvDigitalWrite DISCONNECT_CO_PBX_TIP LOW; EvDigitalWrite DISCONNECT_CO_PBX_RING LOW;
     EvDigitalWrite LED HIGH; EvDigitalWrite DISCONNECT_SHUNT LOW;
     EvDigitalWrite DISCONNECT_SHUNT HIGH; EvDigitalWrite LED LOW] /\
  count (run 40 (boot scenario_inputs)) = 880.
Proof. vm_compute. repeat split. Qed.

(** ** The classifier *)

(** Closes [cursor_ok] on a concrete world. *)
Ltac cursor_in_range := vm_compute; split; [discriminate | reflexivity].

Lemma bind_unfold {A B} (m : M A) (k : A -> M B) (w : world) :
  bind m k w = k (fst (m w)) (snd (m w)).
Proof. unfold bind. destruct (m w); reflexivity. Qed.

Lemma scan_body_spec (s : scan_t) (w : world) :
  0 <= ndx s < NUM_HISTORY ->
  let i := (ndx s - 1) mod NUM_HISTORY in
  let d := delta_at w i in
  scan_body s w =
    (mk_scan i (onhook_band d && onhook s) (offhook_band d && offhook s)
             ((if ringing_level d then 1 else 0) + ringing_samples s), w).
Proof.
  intros Hr i d. unfold scan_body.
  assert (Hi : (if ndx s - 1 <? 0 then NUM_HISTORY - 1 else ndx s - 1) = i).
  { subst i. unfold NUM_HISTORY, SAMPLE_INTERVAL in *. change (2000 / 5) with 400 in *.
    destruct (Z.ltb_spec (ndx s - 1) 0).
    - replace (ndx s) with 0 by lia. reflexivity.
    - rewrite Z.mod_small; lia. }
  rewrite Hi. cbn [bind gets ret].
  change (aget (history (pbx_tip w)) i - aget (history (pbx_ring w)) i) with d.
  clearbody d. unfold onhook_band, offhook_band, ringing_level.
  f_equal. f_equal.
  - destruct ((d <? 35) || (d >? 60)), (onhook s); reflexivity.
  - destruct ((d <? -10) || (d >? 20)), (offhook s); reflexivity.
  - destruct ((d <? -70) || (d >? 70)); lia.
Qed.

Lemma deltas_before_S (w : world) (c : Z) (n : nat) :
  deltas_before w c (S n) =
    delta_at w ((c - 1) mod NUM_HISTORY) ::
    deltas_before w ((c - 1) mod NUM_HISTORY) n.
Proof.
  unfold deltas_before. cbn [seq map]. f_equal.
  - do 2 f_equal. lia.
  - rewrite <- seq_shift, map_map. apply map_ext. intros k.
    f_equal.
    replace ((c - 1) mod NUM_HISTORY - 1 - Z.of_nat k)
      with ((c - 1) mod NUM_HISTORY - (1 + Z.of_nat k)) by lia.
    rewrite Zminus_mod_idemp_l. f_equal. lia.
Qed.

Lemma scan_spec (n : nat) : forall (s : scan_t) (w : world),
  0 <= ndx s < NUM_HISTORY ->
  let ds := deltas_before w (ndx s) n in
  let r := for_loop n scan_body s w in
  snd r = w /\
  onhook (fst r) = forallb onhook_band ds && onhook s /\
  offhook (fst r) = forallb offhook_band ds && offhook s /\
  ringing_samples (fst r) = ringing_count ds + ringing_samples s.
Proof.
  induction n as [|n IH]; intros s w Hr.
  - cbn. repeat split; lia.
  - cbn zeta. rewrite deltas_before_S. cbn [for_loop].
    rewrite bind_unfold, (scan_body_spec s w Hr). cbn [fst snd].
    set (i := (ndx s - 1) mod NUM_HISTORY).
    set (s' := mk_scan i _ _ _).
    assert (Hi : 0 <= ndx s' < NUM_HISTORY).
    { subst s' i. cbn [ndx]. apply Z.mod_pos_bound. reflexivity. }
    destruct (IH s' w Hi) as (Hw & Hon & Hoff & Hcnt).
    subst s'. cbn [ndx onhook offhook ringing_samples] in *.
    rewrite Hw, Hon, Hoff, Hcnt. cbn [forallb ringing_count].
    repeat split.
    + destruct (onhook_band (delta_at w i)), (forallb onhook_band _), (onhook s); reflexivity.
    + destruct (offhook_band (delta_at w i)), (forallb offhook_band _), (offhook s); reflexivity.
    + lia.
Qed.

Lemma getlinestate_spec (w : world) :
  cursor_ok w ->
  getlinestate w = (classify (recent_deltas w) (last_linestate w), w).
Proof.
  intros Hc. unfold getlinestate.
  rewrite bind_unfold. cbn [gets fst snd].
  rewrite bind_unfold.
  destruct (scan_spec (Z.to_nat NUM_SAMPLES) (mk_scan (nextslot (pbx_ring w)) true true 0) w Hc)
    as (Hw & Hon & Hoff & Hcnt).
  cbn [ndx onhook offhook ringing_samples] in *.
  fold (recent_deltas w) in *.
  rewrite Hw, Hon, Hoff, Hcnt, !andb_true_r, Z.add_0_r.
  unfold classify.
  destruct (forallb onhook_band (recent_deltas w)); [reflexivity|].
  destruct (forallb offhook_band (recent_deltas w)); [reflexivity|].
  destruct (ringing_count (recent_deltas w) >=? 2); reflexivity.
Qed.

Lemma scan_frame (n : nat) : forall (s : scan_t) (w : world),
  snd (for_loop n scan_body s w) = w.
Proof.
  induction n as [|n IH]; intros s w; [reflexivity|].
  cbn [for_loop]. rewrite bind_unfold. unfold scan_body at 2.
  cbn [bind gets ret snd]. apply IH.
Qed.

Lemma recent_deltas_length (w : world) :
  length (recent_deltas w) = Z.to_nat NUM_SAMPLES.
Proof. unfold recent_deltas, deltas_before. now rewrite length_map, length_seq. Qed.

Lemma forallb_onhook_band (ds : list Z) :
  forallb onhook_band ds = true <-> Forall (fun d => 35 <= d <= 60) ds.
Proof.
  rewrite forallb_forall, Forall_forall. unfold onhook_band.
  split; intros H d Hd.
  - apply list_elem_of_In, H in Hd. lia.
  - apply list_elem_of_In, H in Hd. lia.
Qed.

Lemma forallb_offhook_band (ds : list Z) :
  forallb offhook_band ds = true <-> Forall (fun d => -10 <= d <= 20) ds.
Proof.
  rewrite forallb_forall, Forall_forall. unfold offhook_band.
  split; intros H d Hd.
  - apply list_elem_of_In, H in Hd. lia.
  - apply list_elem_of_In, H in Hd. lia.
Qed.

Lemma not_forallb_onhook_band (ds : list Z) :
  forallb onhook_band ds = false <-> ~ Forall (fun d => 35 <= d <= 60) ds.
Proof.
  rewrite <- forallb_onhook_band. destruct (forallb onhook_band ds); split; congruence.
Qed.

Lemma not_forallb_offhook_band (ds : list Z) :
  forallb offhook_band ds = false <-> ~ Forall (fun d => -10 <= d <= 20) ds.
Proof.
  rewrite <- forallb_offhook_band. destruct (forallb offhook_band ds); split; congruence.
Qed.

Lemma ringing_count_magnitude (ds : list Z) :
  ringing_count ds = count_if (fun d => 70 <? Z.abs d) ds.
Proof.
  unfold count_if. induction ds as [|d ds IH]; [reflexivity|].
  cbn [ringing_count List.filter]. rewrite IH. unfold ringing_level.
  destruct (Z.ltb_spec 70 (Z.abs d)); cbn [length];
    destruct (Z.ltb_spec d (-70)), (Z.gtb_spec d 70); cbn [orb]; lia.
Qed.

(** The two steady bands exclude each other on any window that has a sample. *)
Lemma bands_disjoint (ds : list Z) :
  ds <> [] -> forallb offhook_band ds = true -> forallb onhook_band ds = false.
Proof.
  destruct ds as [|d ds]; [congruence|]. intros _. cbn [forallb].
  intros H. apply andb_true_iff in H as [H _].
  replace (onhook_band d) with false; [reflexivity|].
  unfold offhook_band, onhook_band in *. lia.
Qed.

(** C2.  When every delta of the window of the [NUM_SAMPLES] most recent
    time-aligned sample pairs lies in the inclusive band [35, 60],
    [getlinestate] returns [ON_HOOK], whatever the held state is. *)
Theorem getlinestate_on_hook (w : world) :
  cursor_ok w ->
  Forall (fun d => 35 <= d <= 60) (recent_deltas w) ->
  eval getlinestate w = ON_HOOK.
Proof.
  intros Hc Hband. unfold eval. rewrite getlinestate_spec by assumption.
  cbn [fst]. unfold classify.
  apply forallb_onhook_band in Hband. now rewrite Hband.
Qed.

Lemma getlinestate_on_hook_witness :
  eval getlinestate
       (world_of (replicate 400%nat (-3)) (replicate 400%nat (-51)) 7 RINGING)
  = ON_HOOK.
Proof.
  apply getlinestate_on_hook.
  - cursor_in_range.
  - apply forallb_onhook_band. vm_compute. reflexivity.
Defined.

(** C3.  When every delta of the window lies in the inclusive band
    [-10, 20], [getlinestate] returns [OFF_HOOK], whatever the held state is:
    the window is not empty and the bands are disjoint, so the on-hook test,
    which has priority, fails. *)
Theorem getlinestate_off_hook (w : world) :
  cursor_ok w ->
  Forall (fun d => -10 <= d <= 20) (recent_deltas w) ->
  eval getlinestate w = OFF_HOOK.
Proof.
  intros Hc Hband. unfold eval. rewrite getlinestate_spec by assumption.
  cbn [fst]. unfold classify.
  apply forallb_offhook_band in Hband.
  rewrite bands_disjoint, Hband; [reflexivity| |assumption].
  intros E. pose proof (recent_deltas_length w) as L. rewrite E in L. discriminate L.
Qed.

Lemma getlinestate_off_hook_witness :
  eval getlinestate
       (world_of (replicate 400%nat (-20)) (replicate 400%nat (-27)) 399 ON_HOOK)
  = OFF_HOOK.
Proof.
  apply getlinestate_off_hook.
  - cursor_in_range.
  - apply forallb_offhook_band. vm_compute. reflexivity.
Defined.

(** C4.  When the window holds at least two deltas of magnitude strictly
    above 70 and satisfies neither the on-hook nor the off-hook band
    condition, [getlinestate] returns [RINGING]. *)
Theorem getlinestate_ringing (w : world) :
  cursor_ok w ->
  2 <= count_if (fun d => 70 <? Z.abs d) (recent_deltas w) ->
  ~ Forall (fun d => 35 <= d <= 60) (recent_deltas w) ->
  ~ Forall (fun d => -10 <= d <= 20) (recent_deltas w) ->
  eval getlinestate w = RINGING.
Proof.
  intros Hc Hcnt Hon Hoff. unfold eval. rewrite getlinestate_spec by assumption.
  cbn [fst]. unfold classify.
  apply not_forallb_onhook_band in Hon. apply not_forallb_offhook_band in Hoff.
  rewrite Hon, Hoff, ringing_count_magnitude.
  destruct (Z.geb_spec (count_if (fun d => 70 <? Z.abs d) (recent_deltas w)) 2);
    [reflexivity | lia].
Qed.

Lemma getlinestate_ringing_witness :
  eval getlinestate
       (world_of (replicate 398%nat 0 ++ [40; -45]) (replicate 398%nat (-48) ++ [-40; 45])
                 0 ON_HOOK)
  = RINGING.
Proof.
  apply getlinestate_ringing.
  - cursor_in_range.
  - vm_compute. discriminate.
  - apply not_forallb_onhook_band. vm_compute. reflexivity.
  - apply not_forallb_offhook_band. vm_compute. reflexivity.
Defined.

(** C5.  When the window satisfies none of the three conditions (not every
    delta in [35, 60], not every delta in [-10, 20], fewer than two deltas of
    magnitude above 70), [getlinestate] returns the held line state. *)
Theorem getlinestate_keeps_state (w : world) :
  cursor_ok w ->
  ~ Forall (fun d => 35 <= d <= 60) (recent_deltas w) ->
  ~ Forall (fun d => -10 <= d <= 20) (recent_deltas w) ->
  count_if (fun d => 70 <? Z.abs d) (recent_deltas w) < 2 ->
  eval getlinestate w = last_linestate w.
Proof.
  intros Hc Hon Hoff Hcnt. unfold eval. rewrite getlinestate_spec by assumption.
  cbn [fst]. unfold classify.
  apply not_forallb_onhook_band in Hon. apply not_forallb_offhook_band in Hoff.
  rewrite Hon, Hoff, ringing_count_magnitude.
  destruct (Z.geb_spec (count_if (fun d => 70 <? Z.abs d) (recent_deltas w)) 2);
    [lia | reflexivity].
Qed.

Lemma getlinestate_keeps_state_witness :
  eval getlinestate
       (world_of (replicate 399%nat 0 ++ [45]) (replicate 399%nat (-48) ++ [-40])
                 0 RINGING)
  = RINGING.
Proof.
  apply (getlinestate_keeps_state
           (world_of (replicate 399%nat 0 ++ [45]) (replicate 399%nat (-48) ++ [-40])
                     0 RINGING)).
  - cursor_in_range.
  - apply not_forallb_onhook_band. vm_compute. reflexivity.
  - apply not_forallb_offhook_band. vm_compute. reflexivity.
  - vm_compute. reflexivity.
Defined.

Lemma getlinestate_frame (w : world) : snd (getlinestate w) = w.
Proof.
  unfold getlinestate.
  rewrite bind_unfold. cbn [gets fst snd]. rewrite bind_unfold, scan_frame.
  destruct (onhook _); [reflexivity|].
  destruct (offhook _); [reflexivity|].
  destruct (ringing_samples _ >=? 2); reflexivity.
Qed.

(** C9.  [getlinestate] leaves the whole world as it found it (both history
    buffers and cursors, [last_linestate], [connected], [shunted], the board),
    and its result is determined by the window of recent deltas and the held
    state. *)
Theorem getlinestate_pure :
  (forall w : world, exec getlinestate w = w) /\
  (forall w1 w2 : world,
     cursor_ok w1 -> cursor_ok w2 ->
     recent_deltas w1 = recent_deltas w2 ->
     last_linestate w1 = last_linestate w2 ->
     eval getlinestate w1 = eval getlinestate w2).
Proof.
  split.
  - intros w. apply getlinestate_frame.
  - intros w1 w2 H1 H2 Hd Hl. unfold eval.
    rewrite !getlinestate_spec by assumption. cbn [fst]. now rewrite Hd, Hl.
Qed.

Lemma getlinestate_pure_witness :
  exec getlinestate (world_of (replicate 400%nat 0) (replicate 400%nat (-48)) 3 ON_HOOK)
  = world_of (replicate 400%nat 0) (replicate 400%nat (-48)) 3 ON_HOOK /\
  eval getlinestate (world_of (replicate 400%nat 0) (replicate 400%nat (-48)) 3 ON_HOOK)
  = eval getlinestate (world_of (replicate 400%nat 2) (replicate 400%nat (-46)) 250 ON_HOOK).
Proof.
  split.
  - apply (proj1 getlinestate_pure).
  - apply (proj2 getlinestate_pure).
    + cursor_in_range.
    + cursor_in_range.
    + vm_compute. reflexivity.
    + reflexivity.
Defined.

(** ** Acquisition and the main loop *)

(** Runs the board primitives and field updates of a straight-line block. *)
Ltac world_step :=
  cbv [exec eval actuation_block do_disconnect do_shunt do_connect digitalWrite delay
       pinMode bind modify gets ret emit set_pins set_shunted set_connected
       set_last_linestate set_count set_adc_reads fst snd negb
       last_linestate pbx_tip pbx_ring count connected shunted pins adc adc_reads log].

Lemma read_voltage_spec (p : line_ptr) (w : world) :
  let l := deref p w in
  let raw := adc w (adc_reads w) (port l) in
  let V := rounded_volts (to_uint16 raw) in
  let n := to_int16 (nextslot l + 1) in
  read_voltage p w =
    (V, assign p (mk_line (name l) (port l) (if n >=? NUM_HISTORY then 0 else n)
                          (aset (history l) (nextslot l) (to_int8 V)))
               (mk_world (last_linestate w) (pbx_tip w) (pbx_ring w)
                         (to_uint32 (count w + 1)) (connected w) (shunted w)
                         (pins w) (adc w) (S (adc_reads w))
                         (log w ++ [EvAnalogRead (port l) raw]))).
Proof.
  destruct w as [ls [tn tp tc th] [rn rp rc rh] c co sh pi ad ar lg].
  destruct p;
    cbv -[rounded_volts to_uint16 to_int8 to_int16 to_uint32 aset NUM_HISTORY
          Z.geb app Z.add];
    reflexivity.
Qed.

Lemma read_voltage_frame (p : line_ptr) (w : world) :
  let w' := exec (read_voltage p) w in
  let pin := port (deref p w) in
  last_linestate w' = last_linestate w /\
  connected w' = connected w /\
  shunted w' = shunted w /\
  pins w' = pins w /\
  adc w' = adc w /\
  adc_reads w' = S (adc_reads w) /\
  log w' = log w ++ [EvAnalogRead pin (adc w (adc_reads w) pin)].
Proof.
  unfold exec. rewrite read_voltage_spec. destruct p; cbn; repeat split; reflexivity.
Qed.

Lemma sampled_frame (w : world) :
  last_linestate (sampled w) = last_linestate w /\
  connected (sampled w) = connected w /\
  shunted (sampled w) = shunted w /\
  pins (sampled w) = pins w /\
  log (sampled w) = log w ++
    [EvAnalogRead (port (pbx_ring w)) (adc w (adc_reads w) (port (pbx_ring w)));
     EvAnalogRead (port (pbx_tip w)) (adc w (S (adc_reads w)) (port (pbx_tip w)))].
Proof.
  unfold sampled.
  destruct (read_voltage_frame Pring w) as (H1 & H2 & H3 & H4 & H5 & H6 & H7).
  destruct (read_voltage_frame Ptip (exec (read_voltage Pring) w))
    as (K1 & K2 & K3 & K4 & K5 & K6 & K7).
  cbn zeta in *. rewrite K1, K2, K3, K4, K7, H1, H2, H3, H4, H5, H6, H7.
  assert (Hp : pbx_tip (exec (read_voltage Pring) w) = pbx_tip w).
  { unfold exec. rewrite read_voltage_spec. reflexivity. }
  cbn [deref]. rewrite Hp, <- app_assoc. repeat split; reflexivity.
Qed.

Lemma actuation_block_spec (w : world) :
  exec actuation_block w =
    mk_world (last_linestate w) (pbx_tip w) (pbx_ring w) (count w) (connected w) false
             (<[LED := LOW]> (<[DISCONNECT_SHUNT := HIGH]>
                (<[DISCONNECT_SHUNT := LOW]> (<[LED := HIGH]> (pins w)))))
             (adc w) (adc_reads w) (log w ++ actuation).
Proof.
  destruct w. unfold actuation. world_step. rewrite <- !app_assoc. reflexivity.
Qed.

Lemma actuation_block_last (w : world) :
  last_linestate (exec actuation_block w) = last_linestate w.
Proof. rewrite actuation_block_spec. reflexivity. Qed.

Lemma set_last_linestate_same (w : world) :
  set_last_linestate (last_linestate w) w = w.
Proof. destruct w; reflexivity. Qed.

(** The part of [loop] that follows the two acquisitions, from any world. *)
Lemma loop_tail_exec (w2 : world) :
  snd ((new_linestate <- getlinestate ;;
        last <- gets last_linestate ;;
        (if negb (line_state_eqb new_linestate last)
         then
           last <- gets last_linestate ;;
           (if line_state_eqb last ON_HOOK && line_state_eqb new_linestate OFF_HOOK
            then
              digitalWrite LED HIGH ;;
              do_shunt true ;;
              delay 750 ;;
              do_shunt false ;;
              digitalWrite LED LOW
            else ret tt) ;;
           modify (set_last_linestate new_linestate)
         else ret tt) ;;
        delay SAMPLE_INTERVAL) w2) =
    emit (EvDelay SAMPLE_INTERVAL)
         (set_last_linestate (fst (getlinestate w2))
            (if line_state_eqb (last_linestate w2) ON_HOOK &&
                line_state_eqb (fst (getlinestate w2)) OFF_HOOK
             then exec actuation_block w2 else w2)).
Proof.
  rewrite bind_unfold, getlinestate_frame.
  set (new := fst (getlinestate w2)). clearbody new.
  rewrite !bind_unfold. cbn [gets fst snd].
  destruct (line_state_eqb new (last_linestate w2)) eqn:E; cbn [negb].
  - assert (new = last_linestate w2) as ->
        by (destruct new, (last_linestate w2); (reflexivity || discriminate E)).
    replace (line_state_eqb (last_linestate w2) ON_HOOK &&
             line_state_eqb (last_linestate w2) OFF_HOOK) with false
      by (destruct (last_linestate w2); reflexivity).
    rewrite set_last_linestate_same. reflexivity.
  - rewrite !bind_unfold. cbn [gets fst snd].
    destruct (line_state_eqb (last_linestate w2) ON_HOOK && line_state_eqb new OFF_HOOK);
      reflexivity.
Qed.

Lemma sampled_unfold (w : world) :
  snd (read_voltage Ptip (snd (read_voltage Pring w))) = sampled w.
Proof. unfold sampled, exec. reflexivity. Qed.

Lemma loop_exec (w : world) :
  exec loop w =
    emit (EvDelay SAMPLE_INTERVAL)
         (set_last_linestate (decision w)
            (if is_edge w then exec actuation_block (sampled w) else sampled w)).
Proof.
  pose proof (sampled_frame w) as (Hl & _).
  unfold is_edge, decision, eval. rewrite <- Hl. clear Hl.
  unfold exec at 1. unfold loop.
  rewrite (bind_unfold (read_voltage Pring)), (bind_unfold (read_voltage Ptip)).
  rewrite sampled_unfold. apply loop_tail_exec.
Qed.

Lemma loop_fields (w : world) :
  last_linestate (exec loop w) = decision w /\
  pbx_tip (exec loop w) = pbx_tip (sampled w) /\
  pbx_ring (exec loop w) = pbx_ring (sampled w) /\
  count (exec loop w) = count (sampled w) /\
  connected (exec loop w) = connected w /\
  shunted (exec loop w) = (if is_edge w then false else shunted w) /\
  pins (exec loop w) = (if is_edge w
             then <[LED := LOW]> (<[DISCONNECT_SHUNT := HIGH]>
                    (<[DISCONNECT_SHUNT := LOW]> (<[LED := HIGH]> (pins w))))
             else pins w) /\
  adc (exec loop w) = adc (sampled w) /\
  adc_reads (exec loop w) = adc_reads (sampled w) /\
  log (exec loop w) = log w ++
    [EvAnalogRead (port (pbx_ring w)) (adc w (adc_reads w) (port (pbx_ring w)));
     EvAnalogRead (port (pbx_tip w)) (adc w (S (adc_reads w)) (port (pbx_tip w)))]
    ++ (if is_edge w then actuation else []) ++ [EvDelay SAMPLE_INTERVAL].
Proof.
  rewrite loop_exec.
  pose proof (sampled_frame w) as (_ & Hco & Hsh & Hpins & Hlog).
  generalize dependent (sampled w). intros w2 Hco Hsh Hpins Hlog.
  generalize (decision w). intros new.
  destruct (is_edge w).
  - rewrite actuation_block_spec. cbn [emit set_last_linestate last_linestate pbx_tip
      pbx_ring count connected shunted pins adc adc_reads log].
    rewrite Hco, Hpins, Hlog, <- !app_assoc. repeat split; reflexivity.
  - cbn [emit set_last_linestate last_linestate pbx_tip
      pbx_ring count connected shunted pins adc adc_reads log].
    rewrite Hlog, <- !app_assoc. repeat split; assumption || reflexivity.
Qed.

Lemma cycle_events_spec (w : world) :
  cycle_events w =
    [EvAnalogRead (port (pbx_ring w)) (adc w (adc_reads w) (port (pbx_ring w)));
     EvAnalogRead (port (pbx_tip w)) (adc w (S (adc_reads w)) (port (pbx_tip w)))]
    ++ (if is_edge w then actuation else []) ++ [EvDelay SAMPLE_INTERVAL].
Proof.
  unfold cycle_events.
  pose proof (loop_fields w) as (_ & _ & _ & _ & _ & _ & _ & _ & _ & Hlog).
  rewrite Hlog. apply drop_app_length.
Qed.

Lemma is_edge_iff (w : world) :
  is_edge w = true <-> last_linestate w = ON_HOOK /\ decision w = OFF_HOOK.
Proof.
  unfold is_edge. generalize (decision w). intros new.
  destruct (last_linestate w), new; cbn; split;
    solve [ intros H; discriminate H
          | intros [H1 H2]; (discriminate H1 || discriminate H2)
          | intros _; split; reflexivity
          | reflexivity ].
Qed.

(** C1.  One pass of [loop] runs the actuation sequence exactly when the held
    state is [ON_HOOK] and the classifier's new decision is [OFF_HOOK]; in
    every other case the pass writes no output pin and leaves the
    conditioning element as it was; in all cases the held state becomes the
    new decision. *)
Theorem actuation_iff_edge (w : world) :
  (actuation_runs w <-> last_linestate w = ON_HOOK /\ decision w = OFF_HOOK) /\
  (~ (last_linestate w = ON_HOOK /\ decision w = OFF_HOOK) ->
   existsb is_digitalWrite (cycle_events w) = false /\
   pins (exec loop w) = pins w /\
   shunted (exec loop w) = shunted w) /\
  last_linestate (exec loop w) = decision w.
Proof.
  pose proof (loop_fields w) as (Hl & _ & _ & _ & _ & Hsh & Hpins & _).
  pose proof (is_edge_iff w) as He.
  pose proof (cycle_events_spec w) as Hev.
  unfold actuation_runs.
  generalize dependent (cycle_events w). generalize dependent (exec loop w).
  intros w' Hl Hsh Hpins evs Hev.
  split; [split|split]; [ | | |exact Hl].
  - intros (pre & post & Hrun). apply He.
    destruct (is_edge w); [reflexivity|].
    rewrite Hev in Hrun. apply (f_equal length) in Hrun.
    rewrite !length_app in Hrun. cbn [length actuation] in Hrun. lia.
  - intros Hedge. apply He in Hedge. rewrite Hedge in Hev. subst evs.
    eexists _, _. reflexivity.
  - intros Hne.
    destruct (is_edge w); [exfalso; apply Hne, He; reflexivity|].
    subst evs. repeat split; assumption || reflexivity.
Qed.

(** C6.  On the ON_HOOK to OFF_HOOK edge the pass performs, after its two
    acquisitions and with nothing in between: LED on, conditioning element
    in, one delay of 750 ms, conditioning element out, LED off; then the
    inter-sample delay.  The element is across the line for exactly those
    750 ms of the pass, the held state is still ON_HOOK when the sequence
    ends and is OFF_HOOK when the pass ends. *)
Theorem actuation_sequence_order (w : world) :
  last_linestate w = ON_HOOK ->
  decision w = OFF_HOOK ->
  cycle_events w =
    [EvAnalogRead (port (pbx_ring w)) (adc w (adc_reads w) (port (pbx_ring w)));
     EvAnalogRead (port (pbx_tip w)) (adc w (S (adc_reads w)) (port (pbx_tip w)));
     EvDigitalWrite LED HIGH;
     EvDigitalWrite DISCONNECT_SHUNT LOW;
     EvDelay 750;
     EvDigitalWrite DISCONNECT_SHUNT HIGH;
     EvDigitalWrite LED LOW;
     EvDelay SAMPLE_INTERVAL] /\
  (forall engaged, engaged_ms engaged (cycle_events w) = 750) /\
  last_linestate (exec actuation_block (sampled w)) = ON_HOOK /\
  last_linestate (exec loop w) = OFF_HOOK /\
  shunted (exec loop w) = false /\
  pins (exec loop w) !! DISCONNECT_SHUNT = Some HIGH /\
  pins (exec loop w) !! LED = Some LOW.
Proof.
  intros Hlast Hnew.
  assert (He : is_edge w = true) by (apply is_edge_iff; split; assumption).
  pose proof (loop_fields w) as (Hl & _ & _ & _ & _ & Hsh & Hpins & _).
  pose proof (sampled_frame w) as (Hs & _).
  pose proof (cycle_events_spec w) as Hev.
  rewrite He in *. rewrite actuation_block_last, Hs, Hl, Hsh, Hpins, Hev.
  split; [reflexivity|]. split; [intros engaged; reflexivity|].
  do 3 (split; [assumption || reflexivity|]). split.
  - rewrite lookup_insert_ne by discriminate. apply lookup_insert_eq.
  - apply lookup_insert_eq.
Qed.

Lemma actuation_sequence_order_witness :
  last_linestate
    (exec loop (world_of (replicate 400%nat (-20)) (replicate 400%nat (-25)) 0 ON_HOOK))
  = OFF_HOOK.
Proof.
  apply (actuation_sequence_order
           (world_of (replicate 400%nat (-20)) (replicate 400%nat (-25)) 0 ON_HOOK)).
  - reflexivity.
  - vm_compute. reflexivity.
Defined.

Lemma actuation_iff_edge_witness :
  actuation_runs (world_of (replicate 400%nat (-20)) (replicate 400%nat (-25)) 0 ON_HOOK) /\
  pins (exec loop (world_of (replicate 400%nat (-20)) (replicate 400%nat (-25)) 0 OFF_HOOK))
  = ∅.
Proof.
  split.
  - apply (proj1 (actuation_iff_edge _)). split; [reflexivity | vm_compute; reflexivity].
  - apply (proj1 (proj2 (actuation_iff_edge
             (world_of (replicate 400%nat (-20)) (replicate 400%nat (-25)) 0 OFF_HOOK)))).
    intros [E _]. discriminate E.
Defined.

(** ** The voltage transform *)

Lemma nondecreasing_upto_sound (f : Z -> Z) (n : nat) :
  nondecreasing_upto f n = true ->
  forall a b : nat, (a <= b)%nat -> (b <= n)%nat -> f (Z.of_nat a) <= f (Z.of_nat b).
Proof.
  induction n as [|n IH]; intros Hchk a b Hab Hbn.
  - replace b with O by lia. replace a with O by lia. lia.
  - cbn [nondecreasing_upto] in Hchk. apply andb_true_iff in Hchk as [Hstep Hrest].
    apply Z.leb_le in Hstep.
    destruct (Nat.eq_dec b (S n)) as [->|Hb].
    + destruct (Nat.eq_dec a (S n)) as [->|Ha]; [lia|].
      transitivity (f (Z.of_nat n)); [|exact Hstep].
      apply IH; [assumption | lia | lia].
    + apply IH; [assumption | lia | lia].
Qed.

(** The transform, evaluated on every code of the converter. *)
Lemma rounded_volts_checked :
  nondecreasing_upto rounded_volts (Z.to_nat ADC_MAX) = true.
Proof. vm_compute. reflexivity. Qed.

Lemma rounded_volts_mono (a b : Z) :
  0 <= a -> a <= b -> b <= ADC_MAX -> rounded_volts a <= rounded_volts b.
Proof.
  intros Ha Hab Hb.
  rewrite <- (Z2Nat.id a), <- (Z2Nat.id b) by lia.
  apply (nondecreasing_upto_sound rounded_volts (Z.to_nat ADC_MAX) rounded_volts_checked); lia.
Qed.

Lemma rounded_volts_ends : rounded_volts 0 = -61 /\ rounded_volts ADC_MAX = 60.
Proof. split; vm_compute; reflexivity. Qed.

Lemma rounded_volts_range (a : Z) :
  0 <= a <= ADC_MAX -> -61 <= rounded_volts a <= 60.
Proof.
  intros [H0 H1]. destruct rounded_volts_ends as [E0 E1].
  rewrite <- E0, <- E1. unfold ADC_MAX in *.
  split; apply rounded_volts_mono; unfold ADC_MAX; lia.
Qed.

(** C8.  The value [read_voltage] returns is the scale-and-bias transform of
    the raw code, rounded to whole volts; over the converter's range of codes
    it is non-decreasing in the code, so code 0 gives its minimum and the
    full-scale code its maximum. *)
Theorem rounded_volts_monotone :
  (forall (p : line_ptr) (w : world),
     eval (read_voltage p) w =
       rounded_volts (to_uint16 (adc w (adc_reads w) (port (deref p w))))) /\
  (forall a b : Z,
     0 <= a -> a <= b -> b <= ADC_MAX -> rounded_volts a <= rounded_volts b) /\
  (forall a : Z,
     0 <= a <= ADC_MAX ->
     rounded_volts 0 <= rounded_volts a <= rounded_volts ADC_MAX).
Proof.
  split; [|split].
  - intros p w. unfold eval. rewrite read_voltage_spec. reflexivity.
  - exact rounded_volts_mono.
  - intros a [H0 H1]. split; apply rounded_volts_mono; unfold ADC_MAX in *; lia.
Qed.

Lemma rounded_volts_monotone_witness :
  rounded_volts 300 <= rounded_volts 700 /\
  rounded_volts 0 <= rounded_volts 512 <= rounded_volts ADC_MAX.
Proof.
  split.
  - apply (proj1 (proj2 rounded_volts_monotone)); unfold ADC_MAX; lia.
  - apply (proj2 (proj2 rounded_volts_monotone)). unfold ADC_MAX. lia.
Defined.

(** ** Start-up and the sample history *)

Lemma sampled_lines (w : world) :
  let r := pbx_ring w in
  let t := pbx_tip w in
  let nr := to_int16 (nextslot r + 1) in
  let nt := to_int16 (nextslot t + 1) in
  pbx_ring (sampled w) =
    mk_line (name r) (port r) (if nr >=? NUM_HISTORY then 0 else nr)
            (aset (history r) (nextslot r)
                  (to_int8 (rounded_volts (to_uint16 (adc w (adc_reads w) (port r)))))) /\
  pbx_tip (sampled w) =
    mk_line (name t) (port t) (if nt >=? NUM_HISTORY then 0 else nt)
            (aset (history t) (nextslot t)
                  (to_int8 (rounded_volts (to_uint16 (adc w (S (adc_reads w)) (port t)))))) /\
  adc (sampled w) = adc w /\
  adc_reads (sampled w) = S (S (adc_reads w)) /\
  count (sampled w) = to_uint32 (to_uint32 (count w + 1) + 1).
Proof.
  cbn zeta. unfold sampled, exec.
  rewrite (read_voltage_spec Pring w). cbn [snd].
  rewrite read_voltage_spec. cbn [snd].
  cbn [deref assign set_pbx_ring set_pbx_tip last_linestate pbx_tip pbx_ring count
       connected shunted pins adc adc_reads log name port nextslot history].
  repeat split; reflexivity.
Qed.

Lemma ret_fst {A} (a : A) (w : world) : fst (ret a w) = a.
Proof. reflexivity. Qed.

Lemma ret_snd {A} (a : A) (w : world) : snd (ret a w) = w.
Proof. reflexivity. Qed.

Lemma modify_snd (f : world -> world) (w : world) : snd (modify f w) = f w.
Proof. reflexivity. Qed.

Lemma for_loop_S {L} (n : nat) (body : L -> M L) (l : L) (w : world) :
  for_loop (S n) body l w = for_loop n body (fst (body l w)) (snd (body l w)).
Proof. cbn [for_loop]. apply bind_unfold. Qed.

Lemma acquire_S (n : nat) (w : world) : acquire (S n) w = acquire n (sampled w).
Proof. reflexivity. Qed.

Lemma fill_exec (n : nat) : forall w : world,
  snd (for_loop n (fun _ : unit => read_voltage Pring ;; read_voltage Ptip ;; ret tt) tt w)
  = acquire n w.
Proof.
  induction n as [|n IH]; intros w; [reflexivity|].
  rewrite for_loop_S, acquire_S.
  rewrite (bind_unfold (read_voltage Pring)), (bind_unfold (read_voltage Ptip)).
  rewrite sampled_unfold, ret_snd.
  destruct (fst (ret tt (sampled w))). apply IH.
Qed.

Lemma setup_outputs_exec (w : world) :
  snd (do_connect true
        (snd (do_shunt false
          (snd (digitalWrite LED LOW
            (snd (pinMode LED OUTPUT
              (snd (pinMode DISCONNECT_CO_PBX_RING OUTPUT
                (snd (pinMode DISCONNECT_CO_PBX_TIP OUTPUT
                  (snd (pinMode DISCONNECT_SHUNT OUTPUT
                    (snd (pinMode PBX_LINE_TIP INPUT
                      (snd (pinMode PBX_LINE_RING INPUT w)))))))))))))))))
  = setup_outputs w.
Proof.
  destruct w. unfold setup_outputs. world_step. rewrite <- !app_assoc. reflexivity.
Qed.

Lemma setup_exec (w : world) :
  exec setup w =
    set_last_linestate ON_HOOK (acquire (Z.to_nat NUM_HISTORY) (setup_outputs w)).
Proof.
  unfold exec, setup.
  do 9 (rewrite bind_unfold).
  rewrite (bind_unfold (for_loop _ _ _)), fill_exec, setup_outputs_exec.
  apply modify_snd.
Qed.

Lemma NUM_HISTORY_nat : Z.to_nat NUM_HISTORY = 400%nat.
Proof. reflexivity. Qed.

Lemma cursor_step (T : nat) :
  let n := to_int16 (Z.of_nat (T mod 400) + 1) in
  (if n >=? NUM_HISTORY then 0 else n) = Z.of_nat (S T mod 400).
Proof.
  cbn zeta. change NUM_HISTORY with 400.
  pose proof (Nat.div_mod_eq T 400) as E1.
  pose proof (Nat.div_mod_eq (S T) 400) as E2.
  pose proof (Nat.mod_upper_bound T 400 ltac:(lia)) as B1.
  pose proof (Nat.mod_upper_bound (S T) 400 ltac:(lia)) as B2.
  assert (Hn : to_int16 (Z.of_nat (T mod 400) + 1) = Z.of_nat (T mod 400) + 1).
  { unfold to_int16. rewrite Z.mod_small; lia. }
  rewrite Hn. destruct (Z.geb_spec (Z.of_nat (T mod 400) + 1) 400); lia.
Qed.

Lemma mod_slots_differ (j T : nat) :
  (j < T)%nat -> (T < j + 400)%nat -> (T mod 400)%nat <> (j mod 400)%nat.
Proof.
  intros H1 H2 E.
  pose proof (Nat.div_mod_eq T 400). pose proof (Nat.div_mod_eq j 400). lia.
Qed.

Lemma aset_in_range (a : list Z) (i : nat) (v : Z) :
  aset a (Z.of_nat i) v = <[i := v]> a.
Proof.
  unfold aset. rewrite (proj2 (Z.ltb_ge _ _)) by lia. now rewrite Nat2Z.id.
Qed.

Section Buffers.
Variable inputs : nat -> Z -> Z.

Lemma buffers_hold_sampled (T : nat) (w : world) :
  buffers_hold inputs T w -> buffers_hold inputs (S T) (sampled w).
Proof.
  intros (Hadc & Hreads & Hpr & Hpt & Hnr & Hnt & Hlr & Hlt & Hslots).
  destruct (sampled_lines w) as (Er & Et & Eadc & Ereads & _).
  unfold buffers_hold. rewrite Er, Et, Eadc, Ereads. cbn [port nextslot history].
  rewrite NUM_HISTORY_nat in *. rewrite Hnr, Hnt, !cursor_step, !aset_in_range, !length_insert.
  pose proof (Nat.mod_upper_bound T 400 ltac:(lia)) as Hb.
  repeat split; try assumption; try lia.
  - destruct (Nat.eq_dec j T) as [->|Hne].
    + rewrite list_lookup_insert_eq by lia.
      unfold ring_sample. now rewrite Hadc, Hreads, Hpr.
    + rewrite list_lookup_insert_ne by (apply mod_slots_differ; lia).
      apply Hslots; lia.
  - destruct (Nat.eq_dec j T) as [->|Hne].
    + rewrite list_lookup_insert_eq by lia.
      unfold tip_sample. now rewrite Hadc, Hreads, Hpt.
    + rewrite list_lookup_insert_ne by (apply mod_slots_differ; lia).
      apply Hslots; lia.
Qed.

Lemma buffers_hold_ext (T : nat) (w w' : world) :
  adc w' = adc w -> adc_reads w' = adc_reads w ->
  pbx_ring w' = pbx_ring w -> pbx_tip w' = pbx_tip w ->
  buffers_hold inputs T w -> buffers_hold inputs T w'.
Proof. unfold buffers_hold. intros -> -> -> ->. trivial. Qed.

Lemma buffers_hold_acquire (n : nat) : forall (T : nat) (w : world),
  buffers_hold inputs T w -> buffers_hold inputs (T + n) (acquire n w).
Proof.
  induction n as [|n IH]; intros T w H.
  - rewrite Nat.add_0_r. exact H.
  - rewrite acquire_S. replace (T + S n)%nat with (S T + n)%nat by lia.
    apply IH, buffers_hold_sampled, H.
Qed.

Lemma buffers_hold_reset :
  buffers_hold inputs 0 (setup_outputs (reset inputs)).
Proof.
  unfold buffers_hold, setup_outputs, reset.
  cbn [adc adc_reads pbx_ring pbx_tip port nextslot history].
  rewrite !length_replicate.
  repeat split; try reflexivity; lia.
Qed.

Lemma buffers_hold_set_last (T : nat) (v : line_state_t) (w : world) :
  buffers_hold inputs T w -> buffers_hold inputs T (set_last_linestate v w).
Proof. apply buffers_hold_ext; reflexivity. Qed.

Lemma buffers_hold_boot :
  buffers_hold inputs (Z.to_nat NUM_HISTORY) (boot inputs).
Proof.
  unfold boot. rewrite setup_exec.
  apply buffers_hold_set_last.
  apply (buffers_hold_acquire (Z.to_nat NUM_HISTORY) 0), buffers_hold_reset.
Qed.

Lemma buffers_hold_loop (T : nat) (w : world) :
  buffers_hold inputs T w -> buffers_hold inputs (S T) (exec loop w).
Proof.
  intros H.
  pose proof (loop_fields w) as (_ & Ht & Hr & _ & _ & _ & _ & Hadc & Hreads & _).
  apply (buffers_hold_ext (S T) (sampled w)); try assumption.
  apply buffers_hold_sampled, H.
Qed.

Lemma run_S (n : nat) (w : world) : run (S n) w = exec loop (run n w).
Proof. reflexivity. Qed.

Lemma buffers_hold_run (n : nat) : forall (T : nat) (w : world),
  buffers_hold inputs T w -> buffers_hold inputs (T + n) (run n w).
Proof.
  induction n as [|n IH]; intros T w H.
  - rewrite Nat.add_0_r. exact H.
  - rewrite run_S. replace (T + S n)%nat with (S (T + n)) by lia.
    apply buffers_hold_loop, IH, H.
Qed.

(** In a warmed-up buffer the slot under the cursor holds the oldest of the
    retained rounds. *)
Lemma buffers_hold_oldest (n : nat) (w : world) :
  buffers_hold inputs (Z.to_nat NUM_HISTORY + n) w ->
  history (pbx_ring w) !! Z.to_nat (nextslot (pbx_ring w)) = Some (ring_sample inputs n) /\
  history (pbx_tip w) !! Z.to_nat (nextslot (pbx_tip w)) = Some (tip_sample inputs n).
Proof.
  intros (_ & _ & _ & _ & Hnr & Hnt & _ & _ & Hslots).
  rewrite Hnr, Hnt, Nat2Z.id. rewrite NUM_HISTORY_nat in *.
  replace ((400 + n) mod 400)%nat with (n mod 400)%nat.
  - apply Hslots; lia.
  - replace (400 + n)%nat with (n + 1 * 400)%nat by lia.
    now rewrite Nat.Div0.mod_add.
Qed.

End Buffers.

(** Whenever [loop] calls the classifier, the cursor it starts from is inside
    the array. *)
Lemma cursor_ok_when_classifying (inputs : nat -> Z -> Z) (n : nat) :
  cursor_ok (sampled (run n (boot inputs))).
Proof.
  pose proof (buffers_hold_run inputs n _ _ (buffers_hold_boot inputs)) as H.
  apply buffers_hold_sampled in H.
  destruct H as (_ & _ & _ & _ & Hnr & _).
  unfold cursor_ok. rewrite Hnr, NUM_HISTORY_nat. change NUM_HISTORY with 400.
  pose proof (Nat.mod_upper_bound (S (400 + n)) 400 ltac:(lia)). lia.
Qed.

Lemma deref_assign (p : line_ptr) (l : pbx_line_t) (w : world) :
  deref p (assign p l w) = l.
Proof. destruct p; reflexivity. Qed.

Lemma deref_assign_other (p q : line_ptr) (l : pbx_line_t) (w : world) :
  q <> p -> deref q (assign p l w) = deref q w.
Proof. destruct p, q; intros H; (reflexivity || congruence). Qed.

Lemma to_int8_small (v : Z) : -128 <= v <= 127 -> to_int8 v = v.
Proof. intros H. unfold to_int8. rewrite Z.mod_small; lia. Qed.

Lemma to_uint16_small (v : Z) : 0 <= v <= ADC_MAX -> to_uint16 v = v.
Proof. unfold ADC_MAX, to_uint16. intros H. apply Z.mod_small. lia. Qed.

(** C7.  Each [read_voltage] stores the rounded voltage in the slot under the
    conductor's cursor and moves that cursor on by one modulo [NUM_HISTORY],
    keeping it inside the array and leaving the other conductor alone.
    After [setup] and any number of passes of [loop], and again at the point
    where the classifier runs, both cursors are equal, every slot holds the
    sample of one of the last [NUM_HISTORY] acquisition rounds, the same
    round in both buffers, and the slot under the cursor holds the oldest of
    them. *)
Theorem history_buffers_circular :
  (forall (p : line_ptr) (w : world),
     0 <= nextslot (deref p w) < NUM_HISTORY ->
     history (deref p (exec (read_voltage p) w)) =
       <[Z.to_nat (nextslot (deref p w)) := to_int8 (eval (read_voltage p) w)]>
         (history (deref p w)) /\
     nextslot (deref p (exec (read_voltage p) w)) =
       (nextslot (deref p w) + 1) mod NUM_HISTORY /\
     0 <= nextslot (deref p (exec (read_voltage p) w)) < NUM_HISTORY /\
     (forall q, q <> p -> deref q (exec (read_voltage p) w) = deref q w) /\
     (0 <= adc w (adc_reads w) (port (deref p w)) <= ADC_MAX ->
      to_int8 (eval (read_voltage p) w) = eval (read_voltage p) w)) /\
  (forall (inputs : nat -> Z -> Z) (n : nat),
     buffers_hold inputs (Z.to_nat NUM_HISTORY + n) (run n (boot inputs)) /\
     buffers_hold inputs (S (Z.to_nat NUM_HISTORY + n)) (sampled (run n (boot inputs))) /\
     nextslot (pbx_tip (run n (boot inputs))) = nextslot (pbx_ring (run n (boot inputs))) /\
     0 <= nextslot (pbx_ring (run n (boot inputs))) < NUM_HISTORY /\
     history (pbx_ring (run n (boot inputs)))
       !! Z.to_nat (nextslot (pbx_ring (run n (boot inputs)))) = Some (ring_sample inputs n) /\
     history (pbx_tip (run n (boot inputs)))
       !! Z.to_nat (nextslot (pbx_tip (run n (boot inputs)))) = Some (tip_sample inputs n)).
Proof.
  split.
  - intros p w Hc. unfold exec, eval. rewrite read_voltage_spec. cbn [fst snd].
    rewrite deref_assign. cbn [history nextslot].
    assert (Hn : to_int16 (nextslot (deref p w) + 1) = nextslot (deref p w) + 1).
    { unfold to_int16. change NUM_HISTORY with 400 in Hc. rewrite Z.mod_small; lia. }
    rewrite Hn. change NUM_HISTORY with 400 in *.
    split; [|split; [|split; [|split]]].
    + unfold aset. now rewrite (proj2 (Z.ltb_ge _ _)) by lia.
    + destruct (Z.geb_spec (nextslot (deref p w) + 1) 400).
      * replace (nextslot (deref p w) + 1) with 400 by lia. reflexivity.
      * rewrite Z.mod_small; lia.
    + destruct (Z.geb_spec (nextslot (deref p w) + 1) 400); lia.
    + intros q Hq. now rewrite deref_assign_other.
    + intros Hraw. rewrite to_uint16_small by assumption.
      apply to_int8_small. pose proof (rounded_volts_range _ Hraw). lia.
  - intros inputs n.
    pose proof (buffers_hold_run inputs n _ _ (buffers_hold_boot inputs)) as H.
    pose proof (buffers_hold_oldest inputs n _ H) as [Hr Ht].
    split; [exact H|]. split; [apply buffers_hold_sampled, H|].
    destruct H as (_ & _ & _ & _ & Hnr & Hnt & _).
    split; [congruence|]. split; [|split; assumption].
    rewrite Hnr, NUM_HISTORY_nat. change NUM_HISTORY with 400.
    pose proof (Nat.mod_upper_bound (400 + n) 400 ltac:(lia)). lia.
Qed.

Lemma history_buffers_circular_witness :
  nextslot (deref Pring (exec (read_voltage Pring)
     (world_of (replicate 400%nat 0) (replicate 400%nat (-48)) 399 ON_HOOK)))
  = (399 + 1) mod NUM_HISTORY.
Proof.
  refine (proj1 (proj2 (proj1 history_buffers_circular Pring
            (world_of (replicate 400%nat 0) (replicate 400%nat (-48)) 399 ON_HOOK) _))).
  vm_compute. split; [discriminate | reflexivity].
Defined.

(** ** The CO-to-PBX relays *)

Lemma relay_writes_app (l1 l2 : list event) :
  relay_writes (l1 ++ l2) = relay_writes l1 ++ relay_writes l2.
Proof. apply List.filter_app. Qed.

Lemma relays_closed_sampled (w : world) : relays_closed w -> relays_closed (sampled w).
Proof.
  intros (Hc & Ht & Hr & Hw).
  pose proof (sampled_frame w) as (_ & Hco & _ & Hpins & Hlog).
  unfold relays_closed. rewrite Hco, Hpins, Hlog, relay_writes_app, Hw.
  repeat split; assumption || reflexivity.
Qed.

Lemma relays_closed_loop (w : world) : relays_closed w -> relays_closed (exec loop w).
Proof.
  intros (Hc & Ht & Hr & Hw).
  pose proof (loop_fields w) as (_ & _ & _ & _ & Hco & _ & Hpins & _ & _ & Hlog).
  unfold relays_closed. rewrite Hco, Hpins, Hlog, !relay_writes_app, Hw.
  destruct (is_edge w).
  - rewrite !lookup_insert_ne by discriminate. repeat split; assumption || reflexivity.
  - repeat split; assumption || reflexivity.
Qed.

Lemma relays_closed_acquire (n : nat) : forall w : world,
  relays_closed w -> relays_closed (acquire n w).
Proof.
  induction n as [|n IH]; intros w H; [exact H|].
  rewrite acquire_S. apply IH, relays_closed_sampled, H.
Qed.

Lemma relays_closed_set_last (v : line_state_t) (w : world) :
  relays_closed w -> relays_closed (set_last_linestate v w).
Proof. intros H. exact H. Qed.

Lemma relays_closed_boot (inputs : nat -> Z -> Z) : relays_closed (boot inputs).
Proof.
  unfold boot. rewrite setup_exec.
  apply relays_closed_set_last, relays_closed_acquire.
  unfold relays_closed, setup_outputs, reset. cbn [connected pins log].
  split; [reflexivity|]. split; [|split; [|reflexivity]].
  - rewrite lookup_insert_ne by discriminate. apply lookup_insert_eq.
  - apply lookup_insert_eq.
Qed.

Lemma relays_closed_run (n : nat) : forall w : world,
  relays_closed w -> relays_closed (run n w).
Proof.
  induction n as [|n IH]; intros w H; [exact H|].
  rewrite run_S. apply relays_closed_loop, IH, H.
Qed.

Lemma do_disconnect_log (w : world) :
  log (exec do_disconnect w) =
    log w ++
    [ EvDigitalWrite LED HIGH;
      EvDigitalWrite DISCONNECT_SHUNT LOW;
      EvDigitalWrite DISCONNECT_CO_PBX_TIP HIGH;
      EvDigitalWrite DISCONNECT_CO_PBX_RING HIGH;
      EvDelay 750;
      EvDigitalWrite DISCONNECT_CO_PBX_TIP LOW;
      EvDigitalWrite DISCONNECT_CO_PBX_RING LOW;
      EvDigitalWrite DISCONNECT_SHUNT HIGH;
      EvDigitalWrite LED LOW ].
Proof. destruct w. world_step. rewrite <- !app_assoc. reflexivity. Qed.

(** C10.  After [setup], through any number of passes of [loop], the
    CO-to-PBX relays stay closed: [connected] is true, both relay pins are
    low, and the only writes ever made to those pins are the two closing
    writes of [setup].  A pass of [loop] never changes [connected] and never
    writes a relay pin.  Only [do_disconnect], which nothing calls, opens
    them. *)
Theorem relays_stay_connected :
  (forall (inputs : nat -> Z -> Z) (n : nat), relays_closed (run n (boot inputs))) /\
  (forall w : world,
     connected (exec loop w) = connected w /\ relay_writes (cycle_events w) = []) /\
  (forall w : world,
     relay_writes (drop (length (log w)) (log (exec do_disconnect w))) =
       [ EvDigitalWrite DISCONNECT_CO_PBX_TIP HIGH;
         EvDigitalWrite DISCONNECT_CO_PBX_RING HIGH;
         EvDigitalWrite DISCONNECT_CO_PBX_TIP LOW;
         EvDigitalWrite DISCONNECT_CO_PBX_RING LOW ]).
Proof.
  split; [|split].
  - intros inputs n. apply relays_closed_run, relays_closed_boot.
  - intros w. pose proof (loop_fields w) as (_ & _ & _ & _ & Hco & _).
    split; [exact Hco|]. rewrite cycle_events_spec. destruct (is_edge w); reflexivity.
  - intros w. rewrite do_disconnect_log, drop_app_length. reflexivity.
Qed.

(** * Further properties of the sketch *)

(** ** The classifier as a debounce *)

Lemma classify_change (ds : list Z) (held : line_state_t) :
  classify ds held <> held ->
  (classify ds held = ON_HOOK /\ forallb onhook_band ds = true) \/
  (classify ds held = OFF_HOOK /\ forallb onhook_band ds = false /\
   forallb offhook_band ds = true) \/
  (classify ds held = RINGING /\ forallb onhook_band ds = false /\
   forallb offhook_band ds = false /\ 2 <= ringing_count ds).
Proof.
  unfold classify.
  destruct (forallb onhook_band ds); [auto|].
  destruct (forallb offhook_band ds); [auto|].
  destruct (Z.geb_spec (ringing_count ds) 2); [auto 10|].
  congruence.
Qed.

(** X1.  [getlinestate] departs from the held state only on agreement of the
    window: to ON_HOOK only when every delta is in [35, 60], to OFF_HOOK only
    when every delta is in [-10, 20], to RINGING only when at least two
    deltas have magnitude above 70. *)
Theorem getlinestate_change_needs_agreement (w : world) :
  cursor_ok w ->
  eval getlinestate w <> last_linestate w ->
  (eval getlinestate w = ON_HOOK /\
   Forall (fun d => 35 <= d <= 60) (recent_deltas w)) \/
  (eval getlinestate w = OFF_HOOK /\
   Forall (fun d => -10 <= d <= 20) (recent_deltas w)) \/
  (eval getlinestate w = RINGING /\
   2 <= count_if (fun d => 70 <? Z.abs d) (recent_deltas w)).
Proof.
  intros Hc. unfold eval. rewrite getlinestate_spec by assumption. cbn [fst].
  intros Hne. destruct (classify_change _ _ Hne) as [[E H]|[[E [_ H]]|[E [_ [_ H]]]]].
  - left. split; [exact E|]. now apply forallb_onhook_band.
  - right; left. split; [exact E|]. now apply forallb_offhook_band.
  - right; right. split; [exact E|]. now rewrite <- ringing_count_magnitude.
Qed.

Lemma getlinestate_change_needs_agreement_witness :
  (eval getlinestate
     (world_of (replicate 400%nat (-20)) (replicate 400%nat (-27)) 399 ON_HOOK) = ON_HOOK /\
   Forall (fun d => 35 <= d <= 60)
     (recent_deltas (world_of (replicate 400%nat (-20)) (replicate 400%nat (-27)) 399 ON_HOOK))) \/
  (eval getlinestate
     (world_of (replicate 400%nat (-20)) (replicate 400%nat (-27)) 399 ON_HOOK) = OFF_HOOK /\
   Forall (fun d => -10 <= d <= 20)
     (recent_deltas (world_of (replicate 400%nat (-20)) (replicate 400%nat (-27)) 399 ON_HOOK))) \/
  (eval getlinestate
     (world_of (replicate 400%nat (-20)) (replicate 400%nat (-27)) 399 ON_HOOK) = RINGING /\
   2 <= count_if (fun d => 70 <? Z.abs d)
     (recent_deltas (world_of (replicate 400%nat (-20)) (replicate 400%nat (-27)) 399 ON_HOOK))).
Proof.
  apply getlinestate_change_needs_agreement.
  - cursor_in_range.
  - vm_compute. discriminate.
Defined.

(** ** What the classifier sees of the line *)

Section Window.
Variable inputs : nat -> Z -> Z.

Lemma recent_deltas_rounds (T : nat) (w : world) :
  buffers_hold inputs (S T) w ->
  (Z.to_nat NUM_SAMPLES <= S T)%nat ->
  recent_deltas w = rounds_window inputs T.
Proof.
  intros (_ & _ & _ & _ & Hnr & _ & _ & _ & Hslots) HT.
  unfold recent_deltas, deltas_before, rounds_window.
  change (Z.to_nat NUM_SAMPLES) with 10%nat in *. rewrite NUM_HISTORY_nat in *.
  apply map_ext_in. intros k Hk. apply in_seq in Hk.
  rewrite Hnr. change NUM_HISTORY with 400.
  assert (Hi : (Z.of_nat (S T mod 400) - 1 - Z.of_nat k) mod 400
               = Z.of_nat ((T - k) mod 400)).
  { rewrite !Nat2Z.inj_mod. change (Z.of_nat 400) with 400.
    replace (Z.of_nat (T - k)) with (Z.of_nat (S T) - (1 + Z.of_nat k)) by lia.
    replace (Z.of_nat (S T) mod 400 - 1 - Z.of_nat k)
      with (Z.of_nat (S T) mod 400 - (1 + Z.of_nat k)) by lia.
    apply Zminus_mod_idemp_l. }
  rewrite Hi. unfold delta_at, aget.
  rewrite (proj2 (Z.ltb_ge _ _)) by lia. rewrite Nat2Z.id.
  destruct (Hslots (T - k)%nat ltac:(lia) ltac:(lia)) as [Hr Ht].
  rewrite Hr, Ht. reflexivity.
Qed.

Lemma window_of_pass (n : nat) :
  recent_deltas (sampled (run n (boot inputs)))
  = rounds_window inputs (Z.to_nat NUM_HISTORY + n).
Proof.
  apply recent_deltas_rounds.
  - apply buffers_hold_sampled.
    apply (buffers_hold_run inputs n _ _ (buffers_hold_boot inputs)).
  - rewrite NUM_HISTORY_nat. change (Z.to_nat NUM_SAMPLES) with 10%nat. lia.
Qed.

Lemma decision_of_pass (n : nat) :
  decision (run n (boot inputs))
  = classify (rounds_window inputs (Z.to_nat NUM_HISTORY + n))
             (last_linestate (run n (boot inputs))).
Proof.
  unfold decision, eval.
  rewrite getlinestate_spec by apply cursor_ok_when_classifying.
  cbn [fst]. rewrite window_of_pass.
  pose proof (sampled_frame (run n (boot inputs))) as (Hl & _).
  now rewrite Hl.
Qed.






End Window.


(** X2.  At every call of the classifier from [loop], its window is the
    stored tip-minus-ring deltas of the ten most recent acquisition rounds,
    newest first, and the decision of the pass is [classify] of that list
    and the held state. *)
Theorem classifier_window_is_last_rounds (inputs : nat -> Z -> Z) (n : nat) :
  recent_deltas (sampled (run n (boot inputs)))
  = map (fun k => round_delta inputs (Z.to_nat NUM_HISTORY + n - k))
        (seq 0 (Z.to_nat NUM_SAMPLES)) /\
  decision (run n (boot inputs))
  = classify (map (fun k => round_delta inputs (Z.to_nat NUM_HISTORY + n - k))
                  (seq 0 (Z.to_nat NUM_SAMPLES)))
             (last_linestate (run n (boot inputs))).
Proof.
  split; [apply window_of_pass | apply decision_of_pass].
Qed.



(** ** Outputs between passes *)

Lemma outputs_idle_sampled (w : world) : outputs_idle w -> outputs_idle (sampled w).
Proof.
  intros (Hs & Hp & Hl).
  pose proof (sampled_frame w) as (_ & _ & Hsh & Hpins & _).
  unfold outputs_idle. rewrite Hsh, Hpins. auto.
Qed.

Lemma outputs_idle_acquire (n : nat) : forall w : world,
  outputs_idle w -> outputs_idle (acquire n w).
Proof.
  induction n as [|n IH]; intros w H; [exact H|].
  rewrite acquire_S. apply IH, outputs_idle_sampled, H.
Qed.

Lemma outputs_idle_set_last (v : line_state_t) (w : world) :
  outputs_idle w -> outputs_idle (set_last_linestate v w).
Proof. intros H. exact H. Qed.

Lemma outputs_idle_loop (w : world) : outputs_idle w -> outputs_idle (exec loop w).
Proof.
  intros (Hs & Hp & Hl).
  pose proof (loop_fields w) as (_ & _ & _ & _ & _ & Hsh & Hpins & _).
  unfold outputs_idle. rewrite Hsh, Hpins. destruct (is_edge w).
  - split; [reflexivity|]. split.
    + rewrite lookup_insert_ne by discriminate. apply lookup_insert_eq.
    + apply lookup_insert_eq.
  - auto.
Qed.

Lemma outputs_idle_boot (inputs : nat -> Z -> Z) : outputs_idle (boot inputs).
Proof.
  unfold boot. rewrite setup_exec.
  apply outputs_idle_set_last, outputs_idle_acquire.
  unfold outputs_idle, setup_outputs, reset. cbn [shunted pins].
  split; [reflexivity|]. split.
  - rewrite !lookup_insert_ne by discriminate. apply lookup_insert_eq.
  - rewrite !lookup_insert_ne by discriminate. apply lookup_insert_eq.
Qed.

Lemma outputs_idle_run (n : nat) : forall w : world,
  outputs_idle w -> outputs_idle (run n w).
Proof.
  induction n as [|n IH]; intros w H; [exact H|].
  rewrite run_S. apply outputs_idle_loop, IH, H.
Qed.

Lemma pins_mirror_flags_sampled (w : world) :
  pins_mirror_flags w -> pins_mirror_flags (sampled w).
Proof.
  intros (Hs & Ht & Hr).
  pose proof (sampled_frame w) as (_ & Hco & Hsh & Hpins & _).
  unfold pins_mirror_flags. rewrite Hco, Hsh, Hpins. auto.
Qed.

Lemma pins_mirror_flags_acquire (n : nat) : forall w : world,
  pins_mirror_flags w -> pins_mirror_flags (acquire n w).
Proof.
  induction n as [|n IH]; intros w H; [exact H|].
  rewrite acquire_S. apply IH, pins_mirror_flags_sampled, H.
Qed.

Lemma pins_mirror_flags_set_last (v : line_state_t) (w : world) :
  pins_mirror_flags w -> pins_mirror_flags (set_last_linestate v w).
Proof. intros H. exact H. Qed.

Lemma pins_mirror_flags_loop (w : world) :
  pins_mirror_flags w -> pins_mirror_flags (exec loop w).
Proof.
  intros (Hs & Ht & Hr).
  pose proof (loop_fields w) as (_ & _ & _ & _ & Hco & Hsh & Hpins & _).
  unfold pins_mirror_flags. rewrite Hco, Hsh, Hpins. destruct (is_edge w).
  - split; [|split].
    + rewrite lookup_insert_ne by discriminate. apply lookup_insert_eq.
    + rewrite !lookup_insert_ne by discriminate. exact Ht.
    + rewrite !lookup_insert_ne by discriminate. exact Hr.
  - auto.
Qed.

Lemma pins_mirror_flags_boot (inputs : nat -> Z -> Z) : pins_mirror_flags (boot inputs).
Proof.
  unfold boot. rewrite setup_exec.
  apply pins_mirror_flags_set_last, pins_mirror_flags_acquire.
  unfold pins_mirror_flags, setup_outputs, reset. cbn [shunted connected pins].
  split; [|split].
  - rewrite !lookup_insert_ne by discriminate. apply lookup_insert_eq.
  - rewrite lookup_insert_ne by discriminate. apply lookup_insert_eq.
  - apply lookup_insert_eq.
Qed.

Lemma pins_mirror_flags_run (n : nat) : forall w : world,
  pins_mirror_flags w -> pins_mirror_flags (run n w).
Proof.
  induction n as [|n IH]; intros w H; [exact H|].
  rewrite run_S. apply pins_mirror_flags_loop, IH, H.
Qed.

(** X4.  After [setup] and after every pass of [loop] the conditioning
    element is out ([shunted] false, its pin high) and the LED is off, and
    each relay pin carries the negation of its flag. *)
Theorem outputs_idle_between_passes (inputs : nat -> Z -> Z) (n : nat) :
  outputs_idle (run n (boot inputs)) /\ pins_mirror_flags (run n (boot inputs)).
Proof.
  split.
  - apply outputs_idle_run, outputs_idle_boot.
  - apply pins_mirror_flags_run, pins_mirror_flags_boot.
Qed.

(** ** The whole log of a run *)

Lemma log_set_last_linestate (v : line_state_t) (w : world) :
  log (set_last_linestate v w) = log w.
Proof. reflexivity. Qed.

Section Trace.
Variable inputs : nat -> Z -> Z.

Lemma sampled_log (T : nat) (w : world) :
  buffers_hold inputs T w -> log (sampled w) = log w ++ round_reads inputs T.
Proof.
  intros (Hadc & Hreads & Hpr & Hpt & _).
  pose proof (sampled_frame w) as (_ & _ & _ & _ & Hlog).
  rewrite Hlog, Hadc, Hreads, Hpr, Hpt. reflexivity.
Qed.

Lemma acquire_log (n : nat) : forall (T : nat) (w : world),
  buffers_hold inputs T w ->
  log (acquire n w) = log w ++ flat_map (round_reads inputs) (seq T n).
Proof.
  induction n as [|n IH]; intros T w H.
  - cbn [acquire seq flat_map]. now rewrite app_nil_r.
  - rewrite acquire_S, (IH (S T)) by (apply buffers_hold_sampled, H).
    rewrite (sampled_log T w H). cbn [seq flat_map]. now rewrite <- !app_assoc.
Qed.

Lemma boot_log :
  log (boot inputs)
  = setup_events ++ flat_map (round_reads inputs) (seq 0 (Z.to_nat NUM_HISTORY)).
Proof.
  unfold boot. rewrite setup_exec, log_set_last_linestate.
  rewrite (acquire_log _ 0) by apply buffers_hold_reset. reflexivity.
Qed.

Lemma pass_log (n : nat) :
  log (run (S n) (boot inputs)) = log (run n (boot inputs)) ++ pass_events inputs n.
Proof.
  rewrite run_S.
  pose proof (buffers_hold_run inputs n _ _ (buffers_hold_boot inputs))
    as (Hadc & Hreads & Hpr & Hpt & _).
  pose proof (loop_fields (run n (boot inputs)))
    as (_ & _ & _ & _ & _ & _ & _ & _ & _ & Hlog).
  rewrite Hlog, Hadc, Hreads, Hpr, Hpt. reflexivity.
Qed.

Lemma run_log (n : nat) :
  log (run n (boot inputs))
  = log (boot inputs) ++ flat_map (pass_events inputs) (seq 0 n).
Proof.
  induction n as [|n IH].
  - cbn [run seq flat_map]. now rewrite app_nil_r.
  - rewrite pass_log, IH, seq_S, flat_map_app. cbn [flat_map Nat.add].
    rewrite app_nil_r, <- app_assoc. reflexivity.
Qed.

End Trace.

(** X5.  The log of a run is the pin set-up of [setup], then the
    [NUM_HISTORY] fill rounds of two conversions each (ring, then tip), then
    for each pass of [loop] its two conversions, the actuation sequence if
    the pass is an ON_HOOK to OFF_HOOK edge, and the 5 ms delay; nothing
    else is ever logged. *)
Theorem log_of_run (inputs : nat -> Z -> Z) (n : nat) :
  log (run n (boot inputs))
  = setup_events
    ++ flat_map (round_reads inputs) (seq 0 (Z.to_nat NUM_HISTORY))
    ++ flat_map (pass_events inputs) (seq 0 n).
Proof. rewrite run_log, boot_log. now rewrite <- app_assoc. Qed.

(** ** The conversion counter *)

Lemma to_uint32_succ (r : Z) : to_uint32 (to_uint32 r + 1) = to_uint32 (r + 1).
Proof. unfold to_uint32. apply Zplus_mod_idemp_l. Qed.

Lemma count_tracks_reads_sampled (w : world) :
  count_tracks_reads w -> count_tracks_reads (sampled w).
Proof.
  unfold count_tracks_reads. intros H.
  destruct (sampled_lines w) as (_ & _ & _ & Hreads & Hcount).
  rewrite Hcount, Hreads, H, (to_uint32_succ (Z.of_nat (adc_reads w))), to_uint32_succ.
  f_equal. lia.
Qed.

Lemma count_tracks_reads_acquire (n : nat) : forall w : world,
  count_tracks_reads w -> count_tracks_reads (acquire n w).
Proof.
  induction n as [|n IH]; intros w H; [exact H|].
  rewrite acquire_S. apply IH, count_tracks_reads_sampled, H.
Qed.

Lemma count_tracks_reads_set_last (v : line_state_t) (w : world) :
  count_tracks_reads w -> count_tracks_reads (set_last_linestate v w).
Proof. intros H. exact H. Qed.

Lemma count_tracks_reads_loop (w : world) :
  count_tracks_reads w -> count_tracks_reads (exec loop w).
Proof.
  intros H. apply count_tracks_reads_sampled in H.
  pose proof (loop_fields w) as (_ & _ & _ & Hc & _ & _ & _ & _ & Hr & _).
  unfold count_tracks_reads in *. now rewrite Hc, Hr.
Qed.

Lemma count_tracks_reads_boot (inputs : nat -> Z -> Z) : count_tracks_reads (boot inputs).
Proof.
  unfold boot. rewrite setup_exec.
  apply count_tracks_reads_set_last, count_tracks_reads_acquire. reflexivity.
Qed.

Lemma count_tracks_reads_run (n : nat) : forall w : world,
  count_tracks_reads w -> count_tracks_reads (run n w).
Proof.
  induction n as [|n IH]; intros w H; [exact H|].
  rewrite run_S. apply count_tracks_reads_loop, IH, H.
Qed.

(** X6.  [count] is the number of conversions made so far, two per fill
    round and two per pass, reduced modulo 2^32. *)
Theorem count_of_run (inputs : nat -> Z -> Z) (n : nat) :
  count (run n (boot inputs)) = (2 * (NUM_HISTORY + Z.of_nat n)) mod 2 ^ 32.
Proof.
  pose proof (count_tracks_reads_run n _ (count_tracks_reads_boot inputs)) as H.
  pose proof (buffers_hold_run inputs n _ _ (buffers_hold_boot inputs)) as (_ & Hr & _).
  unfold count_tracks_reads in H. rewrite H, Hr, NUM_HISTORY_nat.
  unfold to_uint32. change NUM_HISTORY with 400. change (2 ^ 32) with 4294967296.
  replace (Z.of_nat (2 * (400 + n))) with (2 * (400 + Z.of_nat n)) by lia.
  reflexivity.
Qed.

(** ** The isolating sequence of [do_disconnect] *)

Lemma do_disconnect_spec (w : world) :
  exec do_disconnect w =
    mk_world (last_linestate w) (pbx_tip w) (pbx_ring w) (count w) true false
             (<[LED := LOW]>
                (<[DISCONNECT_SHUNT := HIGH]>
                   (<[DISCONNECT_CO_PBX_RING := LOW]>
                      (<[DISCONNECT_CO_PBX_TIP := LOW]>
                         (<[DISCONNECT_CO_PBX_RING := HIGH]>
                            (<[DISCONNECT_CO_PBX_TIP := HIGH]>
                               (<[DISCONNECT_SHUNT := LOW]>
                                  (<[LED := HIGH]> (pins w)))))))))
             (adc w) (adc_reads w)
             (log w ++
              [ EvDigitalWrite LED HIGH;
                EvDigitalWrite DISCONNECT_SHUNT LOW;
                EvDigitalWrite DISCONNECT_CO_PBX_TIP HIGH;
                EvDigitalWrite DISCONNECT_CO_PBX_RING HIGH;
                EvDelay 750;
                EvDigitalWrite DISCONNECT_CO_PBX_TIP LOW;
                EvDigitalWrite DISCONNECT_CO_PBX_RING LOW;
                EvDigitalWrite DISCONNECT_SHUNT HIGH;
                EvDigitalWrite LED LOW ]).
Proof. destruct w. world_step. rewrite <- !app_assoc. reflexivity. Qed.

(** X7.  [do_disconnect], from any world: puts the shunt in before it opens
    the two CO-to-PBX relays and takes it out only after it has closed them,
    so a relay is never open without the shunt; the relays are open for the
    one delay of 750 ms; at the end [connected] is true, [shunted] is false,
    the pins carry the negated flags, the LED is off, and the line state and
    the sample buffers are untouched. *)
Theorem do_disconnect_isolates (w : world) :
  (forall shunt_in : bool,
     shunt_holds_line shunt_in false false
       (drop (length (log w)) (log (exec do_disconnect w))) = true) /\
  (forall tip_open ring_open : bool,
     isolated_ms tip_open ring_open
       (drop (length (log w)) (log (exec do_disconnect w))) = 750) /\
  (forall engaged : bool,
     engaged_ms engaged (drop (length (log w)) (log (exec do_disconnect w))) = 750) /\
  connected (exec do_disconnect w) = true /\
  shunted (exec do_disconnect w) = false /\
  pins_mirror_flags (exec do_disconnect w) /\
  pins (exec do_disconnect w) !! LED = Some LOW /\
  last_linestate (exec do_disconnect w) = last_linestate w /\
  pbx_tip (exec do_disconnect w) = pbx_tip w /\
  pbx_ring (exec do_disconnect w) = pbx_ring w.
Proof.
  rewrite do_disconnect_spec.
  cbn [log connected shunted pins last_linestate pbx_tip pbx_ring].
  rewrite drop_app_length. unfold pins_mirror_flags.
  cbn [connected shunted pins negb].
  split; [intros []; reflexivity|].
  split; [intros [] []; reflexivity|].
  split; [intros []; reflexivity|].
  do 2 (split; [reflexivity|]).
  split; [|split; [apply lookup_insert_eq | auto]].
  split; [|split].
  - rewrite lookup_insert_ne by discriminate. apply lookup_insert_eq.
  - rewrite !lookup_insert_ne by discriminate. apply lookup_insert_eq.
  - rewrite !lookup_insert_ne by discriminate. apply lookup_insert_eq.
Qed.

(** ** Resolution and range of the voltage transform *)

Lemma steps_at_most_one_sound (f : Z -> Z) (n : nat) :
  steps_at_most_one f n = true ->
  forall k : nat, (k < n)%nat -> f (Z.of_nat (S k)) - f (Z.of_nat k) <= 1.
Proof.
  induction n as [|n IH]; intros Hchk k Hk; [lia|].
  cbn [steps_at_most_one] in Hchk. apply andb_true_iff in Hchk as [Hstep Hrest].
  apply Z.leb_le in Hstep.
  destruct (Nat.eq_dec k n) as [->|Hne]; [exact Hstep|].
  apply IH; [assumption | lia].
Qed.

(** A function on codes that never steps up by more than one takes every
    value between its first and its last. *)
Lemma steps_at_most_one_onto (f : Z -> Z) (n : nat) :
  steps_at_most_one f n = true ->
  forall v : Z, f 0 <= v <= f (Z.of_nat n) ->
  exists k : nat, (k <= n)%nat /\ f (Z.of_nat k) = v.
Proof.
  induction n as [|n IH]; intros Hchk v Hv.
  - exists O. split; [lia|]. change (Z.of_nat 0) with 0 in *. lia.
  - pose proof (steps_at_most_one_sound f (S n) Hchk n ltac:(lia)) as Hstep.
    cbn [steps_at_most_one] in Hchk. apply andb_true_iff in Hchk as [_ Hrest].
    destruct (Z.eq_dec v (f (Z.of_nat (S n)))) as [->|Hne].
    + exists (S n). split; [lia | reflexivity].
    + destruct (IH Hrest v ltac:(lia)) as (k & Hk & Hfk).
      exists k. split; [lia | exact Hfk].
Qed.

Lemma rounded_volts_steps_checked :
  steps_at_most_one rounded_volts (Z.to_nat ADC_MAX) = true.
Proof. vm_compute. reflexivity. Qed.

(** X8.  Over the converter's codes 0..1023 the rounded voltage lies between
    -61 and 60 volts, rises by at most one volt from a code to the next, and
    takes every whole value from -61 to 60. *)
Theorem rounded_volts_resolution :
  (forall a : Z, 0 <= a <= ADC_MAX -> -61 <= rounded_volts a <= 60) /\
  (forall a : Z, 0 <= a < ADC_MAX -> rounded_volts (a + 1) - rounded_volts a <= 1) /\
  (forall v : Z, -61 <= v <= 60 ->
     exists a : Z, 0 <= a <= ADC_MAX /\ rounded_volts a = v).
Proof.
  split; [exact rounded_volts_range|]. split.
  - intros a Ha.
    pose proof (steps_at_most_one_sound rounded_volts (Z.to_nat ADC_MAX)
                  rounded_volts_steps_checked (Z.to_nat a)) as H.
    rewrite Nat2Z.inj_succ, Z2Nat.id in H by lia.
    apply H. unfold ADC_MAX in *. lia.
  - intros v Hv. destruct rounded_volts_ends as [E0 E1].
    destruct (steps_at_most_one_onto rounded_volts (Z.to_nat ADC_MAX)
                rounded_volts_steps_checked v) as (k & Hk & Hfk).
    + rewrite Z2Nat.id by (unfold ADC_MAX; lia). rewrite E0, E1. exact Hv.
    + exists (Z.of_nat k). split; [unfold ADC_MAX in *; lia | exact Hfk].
Qed.

Lemma rounded_volts_resolution_witness :
  -61 <= rounded_volts 700 <= 60 /\
  rounded_volts (700 + 1) - rounded_volts 700 <= 1 /\
  exists a : Z, 0 <= a <= ADC_MAX /\ rounded_volts a = -48.
Proof.
  split; [|split].
  - apply (proj1 rounded_volts_resolution). unfold ADC_MAX. lia.
  - apply (proj1 (proj2 rounded_volts_resolution)). unfold ADC_MAX. lia.
  - apply (proj2 (proj2 rounded_volts_resolution)). lia.
Defined.

(** ** Range of the stored samples *)

Section Bounded.
Variable inputs : nat -> Z -> Z.
Hypothesis inputs_in_range : forall (k : nat) (pin : Z), 0 <= inputs k pin <= ADC_MAX.

Lemma stored_sample_bounded (raw : Z) :
  0 <= raw <= ADC_MAX -> -61 <= to_int8 (rounded_volts (to_uint16 raw)) <= 60.
Proof.
  intros H. rewrite to_uint16_small by exact H.
  pose proof (rounded_volts_range raw H). rewrite to_int8_small; lia.
Qed.

Lemma aset_bounded (a : list Z) (i v : Z) :
  Forall (fun v => -61 <= v <= 60) a -> -61 <= v <= 60 ->
  Forall (fun v => -61 <= v <= 60) (aset a i v).
Proof.
  intros Ha Hv. unfold aset. destruct (i <? 0); [exact Ha|].
  apply Forall_insert; assumption.
Qed.

Lemma samples_bounded_sampled (w : world) :
  adc w = inputs -> samples_bounded w -> samples_bounded (sampled w).
Proof.
  intros Hadc [Hr Ht].
  destruct (sampled_lines w) as (Er & Et & _).
  unfold samples_bounded. rewrite Er, Et. cbn [history]. rewrite Hadc.
  split; apply aset_bounded; try assumption; apply stored_sample_bounded, inputs_in_range.
Qed.

Lemma samples_bounded_acquire (m : nat) : forall (T : nat) (w : world),
  buffers_hold inputs T w -> samples_bounded w -> samples_bounded (acquire m w).
Proof.
  induction m as [|m IHm]; intros T w Hb Hs; [exact Hs|].
  rewrite acquire_S. apply (IHm (S T)).
  - apply buffers_hold_sampled, Hb.
  - apply samples_bounded_sampled; [apply Hb | exact Hs].
Qed.

Lemma samples_bounded_set_last (v : line_state_t) (w : world) :
  samples_bounded w -> samples_bounded (set_last_linestate v w).
Proof. intros H. exact H. Qed.

Lemma samples_bounded_run (n : nat) : samples_bounded (run n (boot inputs)).
Proof.
  induction n as [|n IH].
  - cbn [run]. unfold boot. rewrite setup_exec.
    apply samples_bounded_set_last.
    apply (samples_bounded_acquire _ 0%nat); [apply buffers_hold_reset|].
    unfold samples_bounded, setup_outputs, reset. cbn [pbx_ring pbx_tip history].
    split; apply Forall_replicate; lia.
  - rewrite run_S.
    pose proof (buffers_hold_run inputs n _ _ (buffers_hold_boot inputs)) as (Hadc & _).
    pose proof (loop_fields (run n (boot inputs))) as (_ & Ht & Hr & _).
    unfold samples_bounded. rewrite Ht, Hr.
    apply samples_bounded_sampled; assumption.
Qed.

Lemma rounds_window_bounded (last : nat) :
  Forall (fun d => -121 <= d <= 121) (rounds_window inputs last).
Proof.
  unfold rounds_window. apply Forall_forall. intros d Hd.
  apply list_elem_of_In, in_map_iff in Hd as (k & <- & _).
  unfold round_delta, tip_sample, ring_sample.
  pose proof (stored_sample_bounded _ (inputs_in_range (S (2 * (last - k))) PBX_LINE_TIP)).
  pose proof (stored_sample_bounded _ (inputs_in_range (2 * (last - k)) PBX_LINE_RING)).
  lia.
Qed.

End Bounded.

(** X9.  When every conversion returns a code in 0..1023, every sample in
    either history buffer lies between -61 and 60 volts after [setup] and
    after every pass, so it was stored in [int8_t] without wrapping, and
    every delta the classifier forms lies between -121 and 121. *)
Theorem samples_stay_bounded (inputs : nat -> Z -> Z) (n : nat) :
  (forall (k : nat) (pin : Z), 0 <= inputs k pin <= ADC_MAX) ->
  samples_bounded (run n (boot inputs)) /\
  Forall (fun d => -121 <= d <= 121) (recent_deltas (sampled (run n (boot inputs)))).
Proof.
  intros Hin. split.
  - apply samples_bounded_run, Hin.
  - rewrite window_of_pass. apply rounds_window_bounded, Hin.
Qed.

Lemma samples_stay_bounded_witness :
  samples_bounded (run 3 (boot scenario_inputs)).
Proof.
  apply (proj1 (samples_stay_bounded scenario_inputs 3
    (fun k pin => ltac:(unfold scenario_inputs, ADC_MAX;
                        destruct (k <? 2 * 410)%nat, (pin =? PBX_LINE_RING); lia)))).
Defined.

(** ** Serial diagnostics *)

Lemma do_while_exact {St : Type} (body : St -> St) (again : St -> bool) (n : nat) :
  forall (fuel : nat) (s : St),
    (n < fuel)%nat ->
    (forall j : nat, (j < n)%nat -> again (repeat_body body (S j) s) = true) ->
    again (repeat_body body (S n) s) = false ->
    do_while fuel body again s = Some (repeat_body body (S n) s).
Proof.
  induction n as [|n IH]; intros fuel s Hf Hyes Hno.
  - destruct fuel as [|fuel]; [lia|]. cbn [do_while repeat_body] in *.
    now rewrite Hno.
  - destruct fuel as [|fuel]; [lia|]. cbn [do_while].
    pose proof (Hyes O ltac:(lia)) as H0. cbn [repeat_body] in H0. rewrite H0.
    rewrite (IH fuel (body s)); [reflexivity | lia | | exact Hno].
    intros j Hj. apply (Hyes (S j)). lia.
Qed.

Lemma do_while_forever {St : Type} (body : St -> St) (again : St -> bool) (inv : St -> Prop) :
  (forall s, inv s -> inv (body s)) ->
  (forall s, inv s -> again s = true) ->
  forall (fuel : nat) (s : St), inv (body s) -> do_while fuel body again s = None.
Proof.
  intros Hstep Hagain. induction fuel as [|fuel IH]; intros s Hs; [reflexivity|].
  cbn [do_while]. rewrite (Hagain _ Hs). apply IH, Hstep, Hs.
Qed.

Lemma repeat_body_S {St : Type} (body : St -> St) (n : nat) : forall s : St,
  repeat_body body (S n) s = body (repeat_body body n s).
Proof.
  induction n as [|n IH]; intros s; [reflexivity|].
  cbn [repeat_body] in *. now rewrite IH.
Qed.

Lemma slots_from_S (l : pbx_line_t) (from : Z) (n : nat) :
  slots_from l from (S n)
  = slots_from l from n ++ [aget (history l) ((from + Z.of_nat n) mod NUM_HISTORY)].
Proof. unfold slots_from. now rewrite seq_S, map_app. Qed.

Lemma next_index (i : Z) :
  0 <= i < NUM_HISTORY ->
  (if i + 1 >=? NUM_HISTORY then 0 else i + 1) = (i + 1) mod NUM_HISTORY.
Proof.
  change NUM_HISTORY with 400. intros H.
  destruct (Z.geb_spec (i + 1) 400).
  - replace (i + 1) with 400 by lia. reflexivity.
  - rewrite Z.mod_small; lia.
Qed.

Lemma show_samples_steps (l : pbx_line_t) (from : Z) (sent : list tx) (n : nat) :
  0 <= from < NUM_HISTORY ->
  repeat_body (show_samples_body l) n (from, sent)
  = ((from + Z.of_nat n) mod NUM_HISTORY,
     sent ++ flat_map (fun v => [TxInt v; TxStr " "]) (slots_from l from n)).
Proof.
  intros Hfrom. induction n as [|n IH].
  - cbn [repeat_body slots_from seq map flat_map].
    rewrite app_nil_r, Z.add_0_r, Z.mod_small by exact Hfrom. reflexivity.
  - rewrite repeat_body_S, IH. unfold show_samples_body.
    rewrite next_index by (apply Z.mod_pos_bound; reflexivity).
    rewrite slots_from_S, flat_map_app. cbn [flat_map].
    rewrite app_nil_r, <- app_assoc. f_equal.
    rewrite Zplus_mod_idemp_l. f_equal. lia.
Qed.

Lemma slots_from_cons (l : pbx_line_t) (from : Z) (n : nat) :
  slots_from l from (S n)
  = aget (history l) (from mod NUM_HISTORY) :: slots_from l (from + 1) n.
Proof.
  unfold slots_from. cbn [seq map]. f_equal.
  - now rewrite Z.add_0_r.
  - rewrite <- seq_shift, map_map. apply map_ext. intros k. do 2 f_equal. lia.
Qed.

Lemma slots_from_mod (l : pbx_line_t) (from : Z) (n : nat) :
  slots_from l (from mod NUM_HISTORY) n = slots_from l from n.
Proof.
  unfold slots_from. apply map_ext. intros k. f_equal. apply Zplus_mod_idemp_l.
Qed.

(** The slots printed oldest first are the most recent samples read back to
    front. *)
Lemma slots_from_recent (l : pbx_line_t) (c : Z) (n : nat) :
  slots_from l (c - Z.of_nat n) n = rev (samples_before l c n).
Proof.
  induction n as [|n IH]; [reflexivity|].
  unfold samples_before in *. rewrite seq_S, map_app, rev_app_distr. cbn [map rev app].
  rewrite slots_from_cons. f_equal.
  - do 2 f_equal. lia.
  - rewrite <- IH. f_equal. lia.
Qed.

Lemma show_samples_start (c : Z) :
  0 <= c < NUM_HISTORY ->
  (if c - NUM_SAMPLES <? 0 then c - NUM_SAMPLES + NUM_HISTORY else c - NUM_SAMPLES)
  = (c - NUM_SAMPLES) mod NUM_HISTORY.
Proof.
  change NUM_HISTORY with 400. change NUM_SAMPLES with 10. intros H.
  destruct (Z.ltb_spec (c - 10) 0); Z.to_euclidean_division_equations; lia.
Qed.

(** X10.  With the cursor inside the array and fuel for ten iterations,
    [show_samples] finishes after exactly ten iterations and sends the
    counter, the conductor's name and its ten most recent samples, oldest
    first, each followed by a blank. *)
Theorem show_samples_sends_window (fuel : nat) (p : line_ptr) (w : world) :
  0 <= nextslot (deref p w) < NUM_HISTORY ->
  (Z.to_nat NUM_SAMPLES <= fuel)%nat ->
  show_samples fuel p w =
    Some ([TxInt (count w); TxStr ", "; TxStr (name (deref p w)); TxStr ": "]
          ++ flat_map (fun v => [TxInt v; TxStr " "])
               (rev (samples_before (deref p w) (nextslot (deref p w))
                                    (Z.to_nat NUM_SAMPLES)))
          ++ [TxStr "                "; TxLn; TxFlush]).
Proof.
  intros Hc Hfuel. unfold show_samples.
  set (l := deref p w) in *. set (c := nextslot l) in *.
  rewrite show_samples_start by exact Hc.
  assert (Hfrom : 0 <= (c - NUM_SAMPLES) mod NUM_HISTORY < NUM_HISTORY)
    by (apply Z.mod_pos_bound; reflexivity).
  rewrite (do_while_exact _ _ 9).
  - rewrite show_samples_steps by exact Hfrom.
    rewrite slots_from_mod.
    change NUM_SAMPLES with (Z.of_nat 10). rewrite slots_from_recent.
    change (Z.to_nat (Z.of_nat 10)) with 10%nat. now rewrite <- app_assoc.
  - change (Z.to_nat NUM_SAMPLES) with 10%nat in Hfuel. lia.
  - intros j Hj. rewrite show_samples_steps by exact Hfrom. cbn [fst].
    apply negb_true_iff, Z.eqb_neq.
    change NUM_HISTORY with 400 in *. change NUM_SAMPLES with 10 in *.
    Z.to_euclidean_division_equations; lia.
  - rewrite show_samples_steps by exact Hfrom. cbn [fst].
    apply negb_false_iff, Z.eqb_eq.
    change NUM_HISTORY with 400 in *. change NUM_SAMPLES with 10 in *.
    Z.to_euclidean_division_equations; lia.
Qed.

Lemma show_samples_sends_window_witness :
  option_map tx_numbers
    (show_samples 10 Pring
       (world_of (replicate 400%nat 0) (replicate 395%nat (-48) ++ [1; 2; 3; 4; 5]) 3 ON_HOOK))
  = Some [0; -48; -48; 1; 2; 3; 4; 5; -48; -48; -48].
Proof.
  rewrite show_samples_sends_window.
  - vm_compute. reflexivity.
  - vm_compute. split; [discriminate | reflexivity].
  - vm_compute. lia.
Defined.

Lemma history_text_S (l : pbx_line_t) (from : Z) (n : nat) :
  history_text l from (S n)
  = history_text l from n
    ++ [TxInt (aget (history l) ((from + Z.of_nat n) mod NUM_HISTORY)); TxChar " "]
    ++ (if (S n mod 21 =? 0)%nat then [TxLn; TxStr "  "] else []).
Proof.
  unfold history_text. rewrite seq_S, flat_map_app. cbn [flat_map Nat.add].
  now rewrite app_nil_r.
Qed.

Lemma show_history_steps (l : pbx_line_t) (from : Z) (sent : list tx) (n : nat) :
  0 <= from < NUM_HISTORY ->
  repeat_body (show_history_body l) n (from, 0, sent)
  = ((from + Z.of_nat n) mod NUM_HISTORY, Z.of_nat (n mod 21),
     sent ++ history_text l from n).
Proof.
  intros Hfrom. induction n as [|n IH].
  - cbn [repeat_body history_text seq flat_map].
    rewrite app_nil_r, Z.add_0_r, Z.mod_small by exact Hfrom. reflexivity.
  - rewrite repeat_body_S, IH. unfold show_history_body.
    rewrite next_index by (apply Z.mod_pos_bound; reflexivity).
    rewrite history_text_S, Zplus_mod_idemp_l.
    replace (from + Z.of_nat n + 1) with (from + Z.of_nat (S n)) by lia.
    pose proof (Nat.div_mod_eq n 21) as E1.
    pose proof (Nat.div_mod_eq (S n) 21) as E2.
    pose proof (Nat.mod_upper_bound n 21 ltac:(lia)) as B1.
    pose proof (Nat.mod_upper_bound (S n) 21 ltac:(lia)) as B2.
    destruct (Z.gtb_spec (Z.of_nat (n mod 21) + 1) 20) as [Hgt|Hle];
      destruct (Nat.eqb_spec (S n mod 21) 0) as [Hz|Hnz]; try lia.
    + rewrite Hz, <- !app_assoc. reflexivity.
    + rewrite app_nil_r, <- !app_assoc.
      replace (Z.of_nat (n mod 21) + 1) with (Z.of_nat (S n mod 21)) by lia.
      reflexivity.
Qed.

Lemma tx_numbers_app (a b : list tx) : tx_numbers (a ++ b) = tx_numbers a ++ tx_numbers b.
Proof. apply flat_map_app. Qed.

Lemma tx_numbers_history_text (l : pbx_line_t) (from : Z) (n : nat) :
  tx_numbers (history_text l from n) = slots_from l from n.
Proof.
  induction n as [|n IH]; [reflexivity|].
  rewrite history_text_S, slots_from_S, !tx_numbers_app, IH.
  destruct (S n mod 21 =? 0)%nat; reflexivity.
Qed.

Lemma tx_line_ends_app (a b : list tx) :
  tx_line_ends (a ++ b) = (tx_line_ends a + tx_line_ends b)%nat.
Proof. unfold tx_line_ends. now rewrite List.filter_app, length_app. Qed.

Lemma tx_line_ends_history_text (l : pbx_line_t) (from : Z) (n : nat) :
  tx_line_ends (history_text l from n) = (n / 21)%nat.
Proof.
  induction n as [|n IH]; [reflexivity|].
  rewrite history_text_S, !tx_line_ends_app, IH.
  pose proof (Nat.div_mod_eq n 21) as E1.
  pose proof (Nat.div_mod_eq (S n) 21) as E2.
  pose proof (Nat.mod_upper_bound n 21 ltac:(lia)) as B1.
  pose proof (Nat.mod_upper_bound (S n) 21 ltac:(lia)) as B2.
  assert (H1 : forall v, tx_line_ends [TxInt v; TxChar " "] = 0%nat) by reflexivity.
  assert (H2 : tx_line_ends [TxLn; TxStr "  "] = 1%nat) by reflexivity.
  assert (H3 : tx_line_ends [] = 0%nat) by reflexivity.
  destruct (Nat.eqb_spec (S n mod 21) 0) as [Hz|Hnz]; rewrite H1, ?H2, ?H3; lia.
Qed.

(** X11.  With the cursor inside the array and fuel for [NUM_HISTORY]
    iterations, [show_history] finishes after exactly [NUM_HISTORY]
    iterations: it sends every slot of the buffer once, starting with the
    slot under the cursor and wrapping at the end of the array, with a line
    end after every 21st value and one at the end, 20 in all. *)
Theorem show_history_sends_buffer (fuel : nat) (p : line_ptr) (w : world) :
  0 <= nextslot (deref p w) < NUM_HISTORY ->
  (Z.to_nat NUM_HISTORY <= fuel)%nat ->
  exists sent : list tx,
    show_history fuel p w = Some sent /\
    sent = [TxStr (name (deref p w)); TxStr " history: "]
           ++ history_text (deref p w) (nextslot (deref p w)) (Z.to_nat NUM_HISTORY)
           ++ [TxLn] /\
    tx_numbers sent
      = slots_from (deref p w) (nextslot (deref p w)) (Z.to_nat NUM_HISTORY) /\
    tx_line_ends sent = 20%nat.
Proof.
  intros Hc Hfuel. unfold show_history.
  set (l := deref p w) in *. set (c := nextslot l) in *.
  rewrite NUM_HISTORY_nat in *.
  rewrite (do_while_exact _ _ 399).
  - rewrite show_history_steps by exact Hc.
    eexists. split; [reflexivity|]. split; [now rewrite <- app_assoc|].
    rewrite <- app_assoc. split.
    + rewrite !tx_numbers_app, tx_numbers_history_text. cbn [tx_numbers flat_map app].
      now rewrite app_nil_r.
    + rewrite !tx_line_ends_app, tx_line_ends_history_text. reflexivity.
  - lia.
  - intros j Hj. rewrite show_history_steps by exact Hc. cbn [fst].
    apply negb_true_iff, Z.eqb_neq. change NUM_HISTORY with 400 in *.
    Z.to_euclidean_division_equations; lia.
  - rewrite show_history_steps by exact Hc. cbn [fst].
    apply negb_false_iff, Z.eqb_eq. change NUM_HISTORY with 400 in *.
    Z.to_euclidean_division_equations; lia.
Qed.

Lemma show_history_sends_buffer_witness :
  exists sent : list tx,
    show_history 400 Ptip
      (world_of (replicate 400%nat 7) (replicate 400%nat (-48)) 123 ON_HOOK) = Some sent /\
    tx_line_ends sent = 20%nat.
Proof.
  destruct (show_history_sends_buffer 400 Ptip
              (world_of (replicate 400%nat 7) (replicate 400%nat (-48)) 123 ON_HOOK))
    as (sent & H1 & _ & _ & H4).
  - vm_compute. split; [discriminate | reflexivity].
  - vm_compute. lia.
  - exists sent. split; assumption.
Defined.

(** X12.  With the cursor outside the array neither [show_samples] nor
    [show_history] ever finishes: the index they advance stays inside the
    array (or above a negative cursor) and so never meets the cursor. *)
Theorem show_loops_need_cursor_in_range (fuel : nat) (p : line_ptr) (w : world) :
  ~ (0 <= nextslot (deref p w) < NUM_HISTORY) ->
  show_samples fuel p w = None /\ show_history fuel p w = None.
Proof.
  intros Hc. unfold show_samples, show_history.
  set (l := deref p w) in *. set (c := nextslot l) in *.
  change NUM_HISTORY with 400 in *. change NUM_SAMPLES with 10.
  split.
  - rewrite (do_while_forever _ _ (fun s => fst s < 400 /\ (c < 0 -> c < fst s)));
      [reflexivity | | |].
    + intros [ndx sent] [H1 H2]. cbn [fst show_samples_body] in *.
      change NUM_HISTORY with 400.
      destruct (Z.geb_spec (ndx + 1) 400); cbn [fst]; lia.
    + intros [ndx sent] [H1 H2]. cbn [fst] in *.
      apply negb_true_iff, Z.eqb_neq. lia.
    + cbn [fst show_samples_body]. change NUM_HISTORY with 400.
      destruct (Z.ltb_spec (c - 10) 0);
        match goal with |- context [?a >=? 400] => destruct (Z.geb_spec a 400) end;
        cbn [fst]; lia.
  - rewrite (do_while_forever _ _ (fun s => fst (fst s) < 400 /\ (c < 0 -> c < fst (fst s))));
      [reflexivity | | |].
    + intros [[ndx cnt] sent] [H1 H2]. cbn [fst show_history_body] in *.
      change NUM_HISTORY with 400.
      destruct (cnt + 1 >? 20); destruct (Z.geb_spec (ndx + 1) 400); cbn [fst]; lia.
    + intros [[ndx cnt] sent] [H1 H2]. cbn [fst] in *.
      apply negb_true_iff, Z.eqb_neq. lia.
    + cbn [fst show_history_body]. change NUM_HISTORY with 400.
      destruct (0 + 1 >? 20); destruct (Z.geb_spec (c + 1) 400); cbn [fst]; lia.
Qed.

Lemma show_loops_need_cursor_in_range_witness :
  show_samples 1000 Pring
    (world_of (replicate 400%nat 0) (replicate 400%nat (-48)) 400 ON_HOOK) = None.
Proof.
  apply (show_loops_need_cursor_in_range 1000 Pring
           (world_of (replicate 400%nat 0) (replicate 400%nat (-48)) 400 ON_HOOK)).
  vm_compute. intros [_ H]. discriminate H.
Defined.

(** ** The manual commands of [loop_bad] *)

Ltac loop_bad_step :=
  cbv [loop_bad exec eval do_shunt do_connect digitalWrite delay bind modify gets ret
       emit set_pins set_shunted set_connected fst snd negb Ascii.eqb Bool.eqb
       last_linestate pbx_tip pbx_ring count connected shunted pins adc adc_reads log].

(** X13.  [loop_bad] takes at most one received character per call.  With
    nothing received, or a character other than blank, [s] and [t], it
    changes nothing in the world and sends nothing. *)
Theorem loop_bad_ignores_other_keys (rx : list ascii) (w : world) :
  snd (eval (loop_bad rx) w) = tl rx /\
  (match rx with
   | [] => True
   | ch :: _ => ch <> " "%char /\ ch <> "s"%char /\ ch <> "t"%char
   end ->
   exec (loop_bad rx) w = w /\ fst (eval (loop_bad rx) w) = []).
Proof.
  destruct rx as [|ch rx]; [split; [reflexivity | intros _; split; reflexivity]|].
  split.
  - unfold eval, loop_bad. rewrite !bind_unfold. reflexivity.
  - intros (H1 & H2 & H3).
    apply Ascii.eqb_neq in H1, H2, H3.
    unfold exec, eval, loop_bad. rewrite H1, H2, H3. split; reflexivity.
Qed.

Lemma loop_bad_ignores_other_keys_witness :
  exec (loop_bad ["h"%char; " "%char])
       (world_of (replicate 400%nat 0) (replicate 400%nat (-48)) 0 ON_HOOK)
  = world_of (replicate 400%nat 0) (replicate 400%nat (-48)) 0 ON_HOOK.
Proof.
  apply (proj2 (loop_bad_ignores_other_keys ["h"%char; " "%char]
                  (world_of (replicate 400%nat 0) (replicate 400%nat (-48)) 0 ON_HOOK))).
  repeat split; discriminate.
Defined.

(** X14.  The commands of [loop_bad]: a blank inverts [connected] and
    drives both relay pins to match, and reports the new state; [s] does the
    same for the shunt; [t] puts the shunt in for one delay of 600 ms,
    closes the relays before it takes the shunt out, so that whatever the
    relays were no relay is open without the shunt, and ends connected with
    the shunt out.  None of them touches the line state
    or the sample buffers, and each keeps the pins the negation of the
    flags. *)
Theorem loop_bad_commands (rx : list ascii) (w : world) :
  (connected (exec (loop_bad (" "%char :: rx)) w) = negb (connected w) /\
   shunted (exec (loop_bad (" "%char :: rx)) w) = shunted w /\
   fst (eval (loop_bad (" "%char :: rx)) w)
   = [TxStr (if connected w then "disconnected" else "connected"); TxLn]) /\
  (shunted (exec (loop_bad ("s"%char :: rx)) w) = negb (shunted w) /\
   connected (exec (loop_bad ("s"%char :: rx)) w) = connected w /\
   fst (eval (loop_bad ("s"%char :: rx)) w)
   = [TxStr (if shunted w then "shunt is out" else "shunt is in"); TxLn]) /\
  (connected (exec (loop_bad ("t"%char :: rx)) w) = true /\
   shunted (exec (loop_bad ("t"%char :: rx)) w) = false /\
   (forall engaged : bool,
      engaged_ms engaged
        (drop (length (log w)) (log (exec (loop_bad ("t"%char :: rx)) w))) = 600) /\
   (forall shunt_in tip_open ring_open : bool,
      shunt_holds_line shunt_in tip_open ring_open
        (drop (length (log w)) (log (exec (loop_bad ("t"%char :: rx)) w))) = true)) /\
  (forall ch : ascii,
     last_linestate (exec (loop_bad (ch :: rx)) w) = last_linestate w /\
     pbx_tip (exec (loop_bad (ch :: rx)) w) = pbx_tip w /\
     pbx_ring (exec (loop_bad (ch :: rx)) w) = pbx_ring w /\
     (pins_mirror_flags w -> pins_mirror_flags (exec (loop_bad (ch :: rx)) w))).
Proof.
  destruct w as [ls t r c co sh pi ad ar lg].
  split; [|split; [|split]].
  - loop_bad_step. destruct co; repeat split; reflexivity.
  - loop_bad_step. destruct sh; repeat split; reflexivity.
  - loop_bad_step. split; [reflexivity|]. split; [reflexivity|].
    rewrite <- !app_assoc, drop_app_length.
    split; [intros []; reflexivity | intros [] [] []; reflexivity].
  - intros ch. unfold exec, loop_bad. rewrite !bind_unfold. cbn [ret snd fst].
    unfold pins_mirror_flags.
    destruct (Ascii.eqb ch " "), (Ascii.eqb ch "s"), (Ascii.eqb ch "t");
      loop_bad_step; (split; [reflexivity|]); (split; [reflexivity|]);
      (split; [reflexivity|]); intros (Hs & Ht & Hr);
      destruct co, sh; cbn [negb] in *;
      rewrite ?lookup_insert_eq, ?lookup_insert_ne by discriminate;
      rewrite ?lookup_insert_eq, ?lookup_insert_ne by discriminate;
      rewrite ?lookup_insert_eq, ?lookup_insert_ne by discriminate;
      rewrite ?lookup_insert_eq, ?lookup_insert_ne by discriminate;
      auto.
Qed.

Lemma loop_bad_commands_witness :
  pins_mirror_flags (exec (loop_bad [" "%char]) (boot scenario_inputs)).
Proof.
  apply (proj2 (proj2 (proj2 (loop_bad_commands [] (boot scenario_inputs))))).
  apply pins_mirror_flags_boot.
Defined.

(** ** The assumed initial state *)





(** * Version 1.0 *)

Lemma v1_rounded_volts_checked :
  nondecreasing_upto V1.rounded_volts (Z.to_nat ADC_MAX) = true.
Proof. vm_compute. reflexivity. Qed.

Lemma v1_rounded_volts_ends : V1.rounded_volts 0 = -74 /\ V1.rounded_volts ADC_MAX = 8.
Proof. split; vm_compute; reflexivity. Qed.

(** X15.  Version 1.0's transform (Vref = Vbias = 4.9, RA = 108k,
    RB = 7.15k, RC = 158k) is non-decreasing over the codes 0..1023 and maps
    them into -74..8 volts. *)
Theorem v1_rounded_volts_monotone :
  (forall a b : Z,
     0 <= a -> a <= b -> b <= ADC_MAX -> V1.rounded_volts a <= V1.rounded_volts b) /\
  (forall a : Z, 0 <= a <= ADC_MAX -> -74 <= V1.rounded_volts a <= 8).
Proof.
  assert (Hmono : forall a b : Z,
            0 <= a -> a <= b -> b <= ADC_MAX -> V1.rounded_volts a <= V1.rounded_volts b).
  { intros a b Ha Hab Hb.
    rewrite <- (Z2Nat.id a), <- (Z2Nat.id b) by lia.
    apply (nondecreasing_upto_sound V1.rounded_volts (Z.to_nat ADC_MAX)
             v1_rounded_volts_checked); lia. }
  split; [exact Hmono|].
  intros a [H0 H1]. destruct v1_rounded_volts_ends as [E0 E1].
  rewrite <- E0, <- E1. split; apply Hmono; unfold ADC_MAX in *; lia.
Qed.

Lemma v1_rounded_volts_monotone_witness :
  V1.rounded_volts 100 <= V1.rounded_volts 900 /\ -74 <= V1.rounded_volts 512 <= 8.
Proof.
  split.
  - apply (proj1 v1_rounded_volts_monotone); unfold ADC_MAX; lia.
  - apply (proj2 v1_rounded_volts_monotone). unfold ADC_MAX. lia.
Defined.

Lemma v1_body (w : V1.state) (onhook offhook : bool) (cnt i : Z) :
  V1.newlinestate_body w (onhook, offhook, cnt) i
  = (v1_onhook_at w i && onhook, v1_offhook_at w i && offhook,
     (if v1_ringing_at w i then 1 else 0) + cnt).
Proof.
  unfold V1.newlinestate_body, v1_onhook_at, v1_offhook_at, v1_ringing_at. cbn zeta.
  generalize (aget (V1.samples (V1.pbx_ring w)) i) (aget (V1.samples (V1.pbx_tip w)) i).
  intros v_ring v_tip.
  destruct ((v_ring >? -40) || (v_ring <? -60) || (v_tip >? 10) || (v_tip <? -10)),
    ((v_ring >? -15) || (v_ring <? -40) || (v_tip >? -10) || (v_tip <? -30)),
    ((v_ring <? -70) && (v_tip >? -10)); cbn [negb andb]; f_equal; lia.
Qed.

Lemma v1_scan (w : V1.state) (idxs : list Z) : forall (onhook offhook : bool) (cnt : Z),
  fold_left (V1.newlinestate_body w) idxs (onhook, offhook, cnt)
  = (forallb (v1_onhook_at w) idxs && onhook,
     forallb (v1_offhook_at w) idxs && offhook,
     v1_count w idxs + cnt).
Proof.
  induction idxs as [|i idxs IH]; intros onhook offhook cnt.
  - reflexivity.
  - cbn [fold_left forallb v1_count]. rewrite v1_body, IH.
    generalize (v1_onhook_at w i) (v1_offhook_at w i)
               (forallb (v1_onhook_at w) idxs) (forallb (v1_offhook_at w) idxs).
    intros a b c d. f_equal; [f_equal|].
    + destruct a, c, onhook; reflexivity.
    + destruct b, d, offhook; reflexivity.
    + lia.
Qed.

Lemma v1_newlinestate_spec (w : V1.state) :
  V1.newlinestate w =
    if forallb (v1_onhook_at w) v1_indices then ON_HOOK
    else if forallb (v1_offhook_at w) v1_indices then OFF_HOOK
    else if v1_count w v1_indices >=? 2 then RINGING
    else V1.last_linestate w.
Proof.
  unfold V1.newlinestate. fold v1_indices. rewrite v1_scan.
  now rewrite !andb_true_r, Z.add_0_r.
Qed.

Lemma v1_indices_range (f : Z -> bool) :
  forallb f v1_indices = true <-> (forall i : Z, 0 <= i < V1.MAXSAMPLES -> f i = true).
Proof.
  rewrite forallb_forall. change V1.MAXSAMPLES with 10.
  change v1_indices with [0; 1; 2; 3; 4; 5; 6; 7; 8; 9].
  split; intros H i Hi.
  - apply H. cbn [In]. lia.
  - apply H. cbn [In] in Hi. lia.
Qed.

(** X16.  The classifier of version 1.0 reads all ten sample pairs of the
    buffers and neither cursor.  It returns ON_HOOK when every pair has ring
    in [-60, -40] and tip in [-10, 10]; OFF_HOOK when every pair has ring in
    [-40, -15] and tip in [-30, -10] and some pair is not exactly
    (ring -40, tip -10), the one point the two boxes share; otherwise
    RINGING when at least two pairs have ring below -70 with tip above -10,
    and the held state when fewer have. *)
Theorem v1_newlinestate_rules (w : V1.state) :
  let ring i := aget (V1.samples (V1.pbx_ring w)) i in
  let tip i := aget (V1.samples (V1.pbx_tip w)) i in
  let all_on :=
    forall i, 0 <= i < V1.MAXSAMPLES -> -60 <= ring i <= -40 /\ -10 <= tip i <= 10 in
  let all_off :=
    forall i, 0 <= i < V1.MAXSAMPLES -> -40 <= ring i <= -15 /\ -30 <= tip i <= -10 in
  (all_on -> V1.newlinestate w = ON_HOOK) /\
  (all_off ->
   (exists i, 0 <= i < V1.MAXSAMPLES /\ (ring i <> -40 \/ tip i <> -10)) ->
   V1.newlinestate w = OFF_HOOK) /\
  (~ all_on -> ~ all_off ->
   V1.newlinestate w
   = if v1_count w v1_indices >=? 2 then RINGING else V1.last_linestate w) /\
  (forall (c1 c2 : Z) (nm1 nm2 : string) (p1 p2 cnt : Z),
     V1.newlinestate
       (V1.mk_state (V1.last_linestate w)
          (V1.mk_line nm1 p1 c1 (V1.samples (V1.pbx_tip w)))
          (V1.mk_line nm2 p2 c2 (V1.samples (V1.pbx_ring w))) cnt)
     = V1.newlinestate w).
Proof.
  cbn zeta.
  assert (Hon : forallb (v1_onhook_at w) v1_indices = true <->
                (forall i, 0 <= i < V1.MAXSAMPLES ->
                   -60 <= aget (V1.samples (V1.pbx_ring w)) i <= -40 /\
                   -10 <= aget (V1.samples (V1.pbx_tip w)) i <= 10)).
  { rewrite v1_indices_range. unfold v1_onhook_at.
    split; intros H i Hi; specialize (H i Hi); cbn zeta in *; lia. }
  assert (Hoff : forallb (v1_offhook_at w) v1_indices = true <->
                 (forall i, 0 <= i < V1.MAXSAMPLES ->
                    -40 <= aget (V1.samples (V1.pbx_ring w)) i <= -15 /\
                    -30 <= aget (V1.samples (V1.pbx_tip w)) i <= -10)).
  { rewrite v1_indices_range. unfold v1_offhook_at.
    split; intros H i Hi; specialize (H i Hi); cbn zeta in *; lia. }
  split; [|split; [|split]].
  - intros H. rewrite v1_newlinestate_spec. apply Hon in H. now rewrite H.
  - intros H (i & Hi & Hne). rewrite v1_newlinestate_spec.
    destruct (forallb (v1_onhook_at w) v1_indices) eqn:E.
    + exfalso. pose proof (proj1 Hon eq_refl i Hi). specialize (H i Hi). lia.
    + apply Hoff in H. now rewrite H.
  - intros Hn1 Hn2. rewrite v1_newlinestate_spec.
    destruct (forallb (v1_onhook_at w) v1_indices) eqn:E1;
      [exfalso; apply Hn1, Hon; reflexivity|].
    destruct (forallb (v1_offhook_at w) v1_indices) eqn:E2;
      [exfalso; apply Hn2, Hoff; reflexivity|].
    reflexivity.
  - intros c1 c2 nm1 nm2 p1 p2 cnt. rewrite !v1_newlinestate_spec. reflexivity.
Qed.

Lemma v1_newlinestate_rules_witness :
  V1.newlinestate (V1.state_of (replicate 10%nat 0) (replicate 10%nat (-48)) 4 RINGING)
  = ON_HOOK /\
  V1.newlinestate (V1.state_of (replicate 10%nat (-20)) (replicate 10%nat (-25)) 4 ON_HOOK)
  = OFF_HOOK.
Proof.
  split.
  - apply (proj1 (v1_newlinestate_rules
             (V1.state_of (replicate 10%nat 0) (replicate 10%nat (-48)) 4 RINGING))).
    intros i Hi. change V1.MAXSAMPLES with 10 in Hi.
    assert (Hc : i = 0 \/ i = 1 \/ i = 2 \/ i = 3 \/ i = 4 \/ i = 5 \/ i = 6 \/ i = 7 \/
                 i = 8 \/ i = 9) by lia.
    repeat destruct Hc as [->|Hc]; try subst i; vm_compute; repeat split; discriminate.
  - apply (proj1 (proj2 (v1_newlinestate_rules
             (V1.state_of (replicate 10%nat (-20)) (replicate 10%nat (-25)) 4 ON_HOOK)))).
    + intros i Hi. change V1.MAXSAMPLES with 10 in Hi.
      assert (Hc : i = 0 \/ i = 1 \/ i = 2 \/ i = 3 \/ i = 4 \/ i = 5 \/ i = 6 \/ i = 7 \/
                   i = 8 \/ i = 9) by lia.
      repeat destruct Hc as [->|Hc]; try subst i; vm_compute; repeat split; discriminate.
    + exists 0. vm_compute. split; [split; [discriminate | reflexivity]|].
      left. discriminate.
Defined.

(** The overlap of the two boxes: ten pairs of (ring -40, tip -10) satisfy
    both tests, and the on-hook test has priority. *)
Example v1_boxes_overlap :
  V1.newlinestate (V1.state_of (replicate 10%nat (-10)) (replicate 10%nat (-40)) 0 OFF_HOOK)
  = ON_HOOK.
Proof. reflexivity. Qed.

(** X17.  One pass of version 1.0's [loop] ends with the held state equal to
    the classifier's decision.  On an ON_HOOK to OFF_HOOK edge, and only
    then, it logs after its two conversions: LED on, shunt in, relay open,
    delay 600, relay closed, shunt out, LED off; the relay is open for
    exactly that delay and never without the shunt.  Otherwise it logs the
    two conversions and the 5 ms delay only.  (Version 1.0 has one relay,
    on pin 3.) *)
Theorem v1_loop_isolates (raw_ring raw_tip : Z) (w : V1.state) :
  let new := V1.newlinestate (v1_sampled raw_ring raw_tip w) in
  let reads := [EvAnalogRead (V1.port (V1.pbx_ring w)) raw_ring;
                EvAnalogRead (V1.port (V1.pbx_tip w)) raw_tip] in
  let out := V1.loop raw_ring raw_tip w in
  V1.last_linestate (fst out) = new /\
  V1.pbx_tip (fst out) = V1.pbx_tip (v1_sampled raw_ring raw_tip w) /\
  V1.pbx_ring (fst out) = V1.pbx_ring (v1_sampled raw_ring raw_tip w) /\
  (V1.last_linestate w = ON_HOOK /\ new = OFF_HOOK ->
   snd out = reads ++ V1.isolation ++ [EvDelay V1.SAMPLE_INTERVAL] /\
   (forall relay_open, isolated_ms false relay_open (snd out) = 600) /\
   (forall engaged, engaged_ms engaged (snd out) = 600) /\
   (forall shunt_in, shunt_holds_line shunt_in false false (snd out) = true)) /\
  (~ (V1.last_linestate w = ON_HOOK /\ new = OFF_HOOK) ->
   snd out = reads ++ [EvDelay V1.SAMPLE_INTERVAL]).
Proof.
  cbn zeta. unfold V1.loop, v1_sampled.
  assert (Hp : V1.port (V1.pbx_tip (snd (V1.read_voltage Pring raw_ring w)))
               = V1.port (V1.pbx_tip w)) by reflexivity.
  assert (Hl : V1.last_linestate
                 (snd (V1.read_voltage Ptip raw_tip (snd (V1.read_voltage Pring raw_ring w))))
               = V1.last_linestate w) by reflexivity.
  rewrite Hp. revert Hl.
  generalize (snd (V1.read_voltage Ptip raw_tip (snd (V1.read_voltage Pring raw_ring w)))).
  intros w2 Hl. rewrite Hl.
  generalize (V1.newlinestate w2). intros new.
  destruct new, (V1.last_linestate w) eqn:E; cbn [negb line_state_eqb andb fst snd];
    rewrite ?E;
    (split; [try reflexivity; destruct w2; cbn in *; congruence|]);
    (split; [reflexivity|]); (split; [reflexivity|]);
    (split; [intros [H1 H2]; try discriminate H1; try discriminate H2
            | intros Hn; try reflexivity; exfalso; apply Hn; split; reflexivity]).
  split; [reflexivity|]. split; [intros []; reflexivity|].
  split; [intros []; reflexivity | intros []; reflexivity].
Qed.

Lemma v1_loop_isolates_witness :
  snd (V1.loop 657 720 (V1.state_of (replicate 10%nat (-20)) (replicate 10%nat (-25)) 0 ON_HOOK))
  = [EvAnalogRead PBX_LINE_RING 657; EvAnalogRead PBX_LINE_TIP 720]
    ++ V1.isolation ++ [EvDelay V1.SAMPLE_INTERVAL].
Proof.
  apply (proj1 (proj2 (proj2 (proj2 (v1_loop_isolates 657 720
    (V1.state_of (replicate 10%nat (-20)) (replicate 10%nat (-25)) 0 ON_HOOK)))))).
  split; [reflexivity | vm_compute; reflexivity].
Defined.
